(** * steembase.http_client: the JSON-RPC client with node fail-over

    A shallow embedding of [src/steembase/http_client.py] and the
    properties of its request builder, node rotation and retry loop.

    Python values are kept as a small inductive type, the client object
    as a record that every method takes and returns, the network as a
    function the client calls (with a log of what was sent), and a raised
    exception as the [Err] outcome of a call.

    The calls to the logger change nothing the client reads and are
    left out, except for the host name that two of them format, whose
    evaluation can raise.  The keyword arguments that only configure
    the connection pool are left out too.  The interpreter's limit on
    the depth of recursion is a number that [exec] is given. *)

From Equations Require Import Equations.
From Stdlib Require Import ZArith List String Ascii Bool Lia DecimalString.
Import ListNotations.

#[local] Set Warnings "-register-all".
Local Open Scope Z_scope.

(** ** Python values *)

(** The values that travel through the client: what [json.loads] can
    produce, plus tuples (the [*args] of a call).  A [str] is held as its
    UTF-8 bytes, so [.encode('utf8')] is the identity on it.  A float is
    only ever passed through, and is held as the text that [json.dumps]
    writes for it. *)
Inductive pyval : Type :=
| PyNone
| PyBool (b : bool)
| PyInt (z : Z)
| PyFloat (repr : string)
| PyStr (s : string)
| PyList (items : list pyval)
| PyTuple (items : list pyval)
| PyDict (entries : list (string * pyval)).

(** The double quote character. *)
Definition dquote : ascii := "034"%char.

Module Json.

(** [json.dumps(obj, ensure_ascii=False)] with the default separators
    [', '] and [': ']. *)

Definition hexdigit (n : nat) : ascii :=
  nth n ["0"; "1"; "2"; "3"; "4"; "5"; "6"; "7"; "8"; "9";
         "a"; "b"; "c"; "d"; "e"; "f"]%char "0"%char.

(** ESCAPE_DCT of json.encoder: backslash, quote, the five short
    escapes, and [\u00XX] for the other characters below 0x20. *)
Definition escape_char (c : ascii) : string :=
  let n := nat_of_ascii c in
  if Nat.eqb n 92 then "\\"%string
  else if Nat.eqb n 34 then String "\"%char (String dquote EmptyString)
  else if Nat.eqb n 8 then "\b"%string
  else if Nat.eqb n 12 then "\f"%string
  else if Nat.eqb n 10 then "\n"%string
  else if Nat.eqb n 13 then "\r"%string
  else if Nat.eqb n 9 then "\t"%string
  else if Nat.ltb n 32 then
    String.append "\u00"
      (String (hexdigit (Nat.div n 16)) (String (hexdigit (Nat.modulo n 16)) EmptyString))
  else String c EmptyString.

Fixpoint escape (s : string) : string :=
  match s with
  | EmptyString => EmptyString
  | String c rest => String.append (escape_char c) (escape rest)
  end.

Definition encode_basestring (s : string) : string :=
  String dquote (String.append (escape s) (String dquote EmptyString)).

Definition join (sep : string) (parts : list string) : string :=
  String.concat sep parts.

Fixpoint dumps (v : pyval) : string :=
  match v with
  | PyNone => "null"
  | PyBool true => "true"
  | PyBool false => "false"
  | PyInt z => NilZero.string_of_int (Z.to_int z)
  | PyFloat repr => repr
  | PyStr s => encode_basestring s
  | PyList items | PyTuple items =>
      String.append "[" (String.append (join ", " (map dumps items)) "]")
  | PyDict entries =>
      String.append "{"
        (String.append
           (join ", "
              (map (fun kv => String.append (encode_basestring (fst kv))
                                (String.append ": " (dumps (snd kv))))
                   entries))
           "}")
  end.

End Json.

(** ** Operators of the interpreter used by [exec] *)

(** What the transport hands back.  [data] is kept as what
    [json.loads(response.data.decode('utf-8'))] makes of the bytes: the
    decoded value, or [None] when decoding raises. *)
Record HTTPResponse : Type := { status : Z; data : option pyval }.

(** The argument of [SteemdBadResponse]: the raw response, or a text. *)
Inductive bad_response_arg : Type :=
| BadResponse (response : HTTPResponse)
| BadMessage (text : string).

(** An instance of (a subclass of) [Exception] raised by the transport,
    which is what [except Exception] catches: [MaxRetryError],
    [ReadTimeoutError], [ProtocolError], [RemoteDisconnected],
    [socket.timeout] and the like. *)
Record Exception : Type := { exc_class : string; exc_args : string }.

(** What a call raised: the transport's own exception re-raised, the
    two exceptions [exec] constructs, and those of the interpreter and
    of the libraries. *)
Inductive raised : Type :=
| TransportExc (e : Exception)
| SteemdBadResponse (arg : bad_response_arg)
| RPCError (error_message : pyval)
| TypeError
| KeyError (key : string)
| AttributeError
| StopIteration
| ValueError
| RecursionError.

Inductive res (A : Type) : Type :=
| Ok (a : A)
| Err (e : raised).
Arguments Ok {A} a.
Arguments Err {A} e.

Definition bind {A B : Type} (m : res A) (k : A -> res B) : res B :=
  match m with
  | Ok a => k a
  | Err e => Err e
  end.

Notation "x <- m ;; k" := (bind m (fun x => k))
  (at level 61, m at next level, right associativity).

Fixpoint lookup (key : string) (entries : list (string * pyval)) : option pyval :=
  match entries with
  | [] => None
  | (k, v) :: rest => if String.eqb key k then Some v else lookup key rest
  end.

Definition is_str (s : string) (v : pyval) : bool :=
  match v with
  | PyStr t => String.eqb s t
  | _ => false
  end.

Fixpoint is_substring (needle hay : string) : bool :=
  if String.prefix needle hay then true
  else match hay with
       | EmptyString => false
       | String _ rest => is_substring needle rest
       end.

(** [key in container], for a [str] key: key membership on a dict,
    element membership on a list or tuple, substring on a str, and
    [TypeError] on what is not iterable. *)
Definition contains (key : string) (container : pyval) : res bool :=
  match container with
  | PyDict entries =>
      Ok (match lookup key entries with Some _ => true | None => false end)
  | PyList items | PyTuple items => Ok (existsb (is_str key) items)
  | PyStr s => Ok (is_substring key s)
  | PyNone | PyBool _ | PyInt _ | PyFloat _ => Err TypeError
  end.

(** [container[key]], for a [str] key: only a dict can be indexed by a
    str. *)
Definition getitem (container : pyval) (key : string) : res pyval :=
  match container with
  | PyDict entries =>
      match lookup key entries with
      | Some v => Ok v
      | None => Err (KeyError key)
      end
  | _ => Err TypeError
  end.

(** [obj.get]: the bound method of a dict; any other value here has no
    attribute [get]. *)
Definition getattr_get (obj : pyval) : res (string -> pyval -> pyval) :=
  match obj with
  | PyDict entries =>
      Ok (fun key default =>
            match lookup key entries with
            | Some v => v
            | None => default
            end)
  | _ => Err AttributeError
  end.

(** ** The request builder *)

(** Truth value of the [api] argument ([None] or a str). *)
Definition truthy_api (api : option string) : option string :=
  match api with
  | Some a => if String.eqb a "" then None else Some a
  | None => None
  end.

Definition headers (_id : Z) : list (string * pyval) :=
  [("jsonrpc"%string, PyStr "2.0"); ("id"%string, PyInt _id)].

Definition body_dict (name : string) (args : list pyval)
    (api : option string) (_id : Z) : list (string * pyval) :=
  match truthy_api api with
  | Some a =>
      (headers _id ++
         [("method"%string, PyStr "call");
          ("params"%string, PyList [PyStr a; PyStr name; PyTuple args])])%list
  | None =>
      (headers _id ++
         [("method"%string, PyStr name);
          ("params"%string, PyTuple args)])%list
  end.

(** [HttpClient.json_rpc_body(name, *args, api, as_json, _id)]: the
    serialized bytes when [as_json], the dictionary otherwise. *)
Definition json_rpc_body (name : string) (args : list pyval)
    (api : option string) (as_json : bool) (_id : Z) : string + pyval :=
  let body_dict := body_dict name args api _id in
  if as_json then inl (Json.dumps (PyDict body_dict))
  else inr (PyDict body_dict).

(** ** The client object *)

(** [itertools.cycle(nodes)]: the saved items and the position of the
    item that [next] yields. *)
Record cycle : Type := { saved : list string; cursor : nat }.

Definition cycle_of (items : list string) : cycle :=
  {| saved := items; cursor := 0 |}.

(** [next(it)]: [None] stands for [StopIteration], which only the cycle
    of an empty list raises. *)
Definition next (it : cycle) : option (string * cycle) :=
  match nth_error (saved it) (cursor it) with
  | Some item =>
      Some (item,
            {| saved := saved it;
               cursor := if Nat.ltb (S (cursor it)) (List.length (saved it))
                         then S (cursor it) else 0%nat |})
  | None => None
  end.

(** The attributes of [HttpClient] that the methods below read or write.
    [self.request] is [partial(self.http.urlopen, 'POST', self.url)], set
    together with [self.url], so it is determined by [url]. *)
Record HttpClient : Type := {
  return_with_args : bool;
  max_workers : option Z;
  max_failovers : Z;
  nodes : cycle;
  url : string
}.

Definition with_nodes (self : HttpClient) (it : cycle) : HttpClient :=
  {| return_with_args := return_with_args self;
     max_workers := max_workers self;
     max_failovers := max_failovers self;
     nodes := it;
     url := url self |}.

(** [HttpClient.set_node(node_url)] *)
Definition set_node (self : HttpClient) (node_url : string) : HttpClient :=
  {| return_with_args := return_with_args self;
     max_workers := max_workers self;
     max_failovers := max_failovers self;
     nodes := nodes self;
     url := node_url |}.

(** [HttpClient.next_node()]: [self.set_node(next(self.nodes))]. *)
Definition next_node (self : HttpClient) : res HttpClient :=
  match next (nodes self) with
  | Some (node_url, it) => Ok (set_node (with_nodes self it) node_url)
  | None => Err StopIteration
  end.

(** The keyword arguments of the constructor that the client keeps; the
    others configure the connection pool and the logger. *)
Record kwargs : Type := {
  kw_return_with_args : option bool;
  kw_max_workers : option Z;
  kw_max_failovers : option Z
}.


Definition kwargs_get {A : Type} (value : option A) (default : A) : A :=
  match value with
  | Some a => a
  | None => default
  end.

(** [HttpClient.__init__(nodes, **kwargs)] *)
Definition __init__ (nodes : list string) (kw : kwargs) : res HttpClient :=
  next_node
    {| return_with_args := kwargs_get (kw_return_with_args kw) false;
       max_workers := kw_max_workers kw;
       max_failovers := kwargs_get (kw_max_failovers kw) 10;
       nodes := cycle_of nodes;
       url := "" |}.

(** ** The retry loop *)

(** What [urlopen] is given as [body]. *)
Definition request_body : Type := (string + pyval)%type.

(** One entry of the log of requests: where it went, what it carried,
    and the [_ret_cnt] of the call of [exec] that sent it. *)
Record attempt : Type := {
  sent_to : string;
  sent_body : request_body;
  sent_ret_cnt : Z
}.

Definition logged (self : HttpClient) (body : request_body) (_ret_cnt : Z)
    : attempt :=
  {| sent_to := url self; sent_body := body; sent_ret_cnt := _ret_cnt |}.

Definition missing_result : string :=
  String.append "The response is missing a "
    (String dquote (String.append "result" (String dquote "."))).

(** [status is not 200].  The status is an int, and CPython keeps a
    single object for every int from -5 to 256, so the object is not the
    one of the literal exactly when its value is not 200. *)
Definition is_not_200 (status : Z) : bool := negb (Z.eqb status 200).

Definition truthy (flag : option bool) : bool :=
  match flag with
  | Some b => b
  | None => false
  end.

(** What [urlparse(url)] comes to: a parse, of which the client only
    reads the host name (a str or [None]), or the [ValueError] that the
    library raises on a URL it rejects. *)
Inductive parse_outcome : Type :=
| Parsed (hostname : pyval)
| Rejected.

Section Transport.

(** The pooled transport: what the [n]-th request on the wire, a POST
    of [body] to [url], comes back with: an exception or a response. *)
Variable urlopen : nat -> string -> request_body -> Exception + HTTPResponse.

(** The URL parser of the standard library. *)
Variable urlparse : string -> parse_outcome.

(** [HttpClient.hostname]: [urlparse(self.url).hostname]. *)
Definition hostname (self : HttpClient) : res pyval :=
  match urlparse (url self) with
  | Parsed name => Ok name
  | Rejected => Err ValueError
  end.

(** [HttpClient.exec(name, *args, api, return_with_args, _ret_cnt)].
    The result is what the call returned or raised, the client after
    the call and the log of requests after the call.

    [stack] is the number of further calls of [exec] that the
    interpreter's recursion limit lets this call nest.  A fail-over
    with none left raises [RecursionError] and sends nothing more.
    Which frame overflows, and so whether the client has rotated once
    more by then, depends on the interpreter and on how deep the logger
    and the encoder go; the embedding takes it to be the call of
    [failover] itself, before the rotation. *)
Equations? exec (self : HttpClient) (wire : list attempt) (stack : nat)
    (name : string) (args : list pyval) (api : option string)
    (return_with_args : option bool) (_ret_cnt : Z)
  : res pyval * HttpClient * list attempt
  by wf (Z.to_nat (max_failovers self - _ret_cnt)) lt :=
exec self wire stack name args api return_with_args _ret_cnt :=
  let body := json_rpc_body name args api true 0 in
  let wire' := (wire ++ [logged self body _ret_cnt])%list in
  (* failover(): self.next_node(), then self.exec(name, *args,
     return_with_args=return_with_args, _ret_cnt=_ret_cnt + 1); api is
     not passed on, so the inner call runs with api=None.  Every call
     site is below the test of the counter against the budget. *)
  let failover (_ : ~ _ret_cnt >= max_failovers self) :=
    match stack with
    | O => (Err RecursionError, self, wire')
    | S room =>
        match next (nodes self) with
        | None => (Err StopIteration, self, wire')
        | Some (node_url, it) =>
            exec (set_node (with_nodes self it) node_url) wire' room
                 name args None return_with_args (_ret_cnt + 1)
        end
    end in
  (* response = self.request(body=body) *)
  match urlopen (List.length wire) (url self) body with
  | inl e =>
      (* except Exception as e *)
      match Z_ge_dec _ret_cnt (max_failovers self) with
      | left _ => (Err (TransportExc e), self, wire')
      | right budget =>
          (* logging.info(... % (self.hostname, e.__class__.__name__)) *)
          match hostname self with
          | Err x => (Err x, self, wire')
          | Ok _ => failover budget
          end
      end
  | inr response =>
      if is_not_200 (status response) then
        match Z_ge_dec _ret_cnt (max_failovers self) with
        | left _ => (Err (SteemdBadResponse (BadResponse response)), self, wire')
        | right budget =>
            (* logging.info(... % (self.hostname, response.status)) *)
            match hostname self with
            | Err x => (Err x, self, wire')
            | Ok _ => failover budget
            end
        end
      else
        (* response_json = json.loads(response.data.decode('utf-8')) *)
        match data response with
        | None =>
            match Z_ge_dec _ret_cnt (max_failovers self) with
            | left _ =>
                (Err (SteemdBadResponse (BadResponse response)), self, wire')
            | right budget => failover budget
            end
        | Some response_json =>
            match contains "error" response_json with
            | Err x => (Err x, self, wire')
            | Ok true =>
                (* error.get('detail', response_json['error']['message']):
                   the attribute first, then the arguments, then the call *)
                match (error <- getitem response_json "error" ;;
                       get <- getattr_get error ;;
                       error' <- getitem response_json "error" ;;
                       message <- getitem error' "message" ;;
                       Ok (get "detail"%string message)) with
                | Err x => (Err x, self, wire')
                | Ok error_message =>
                    match Z_ge_dec _ret_cnt (max_failovers self) with
                    | left _ => (Err (RPCError error_message), self, wire')
                    | right budget => failover budget
                    end
                end
            | Ok false =>
                match contains "result" response_json with
                | Err x => (Err x, self, wire')
                | Ok false =>
                    (Err (SteemdBadResponse (BadMessage missing_result)),
                     self, wire')
                | Ok true =>
                    match getitem response_json "result" with
                    | Err x => (Err x, self, wire')
                    | Ok result =>
                        if truthy return_with_args
                        then (Ok (PyTuple [result; PyTuple args]), self, wire')
                        else (Ok result, self, wire')
                    end
                end
            end
        end
  end.
Proof. simpl. lia. Qed.

(** [ensure_list] of [exec_multi_with_futures]. *)
Definition ensure_list (parameter : pyval) : list pyval :=
  match parameter with
  | PyList items | PyTuple items => items
  | _ => [parameter]
  end.

(** The calls [executor.submit(self.exec, name, *ensure_list(param),
    api=api)] of a batch, run one after the other in the order of
    [params], each on the client as the call before it left it and each
    in a thread of its own, of depth [stack]: what every future
    holds. *)
Fixpoint submitted (self : HttpClient) (wire : list attempt) (stack : nat)
    (name : string) (params : list pyval) (api : option string)
  : list (res pyval) * HttpClient * list attempt :=
  match params with
  | [] => ([], self, wire)
  | param :: rest =>
      let '(r, self1, wire1) :=
        exec self wire stack name (ensure_list param) api None 0 in
      let '(rs, self2, wire2) := submitted self1 wire1 stack name rest api in
      (r :: rs, self2, wire2)
  end.

(** [for future in as_completed(futures): yield future.result()], where
    [order] lists the futures, by their place in [params], in the order
    in which [as_completed] hands them out: the values yielded, and the
    exception that ends the generator when a future holds one. *)
Fixpoint yielded (outcomes : list (res pyval)) (order : list nat)
  : list pyval * option raised :=
  match order with
  | [] => ([], None)
  | i :: later =>
      match nth_error outcomes i with
      | Some (Ok v) =>
          let '(values, ending) := yielded outcomes later in
          (v :: values, ending)
      | Some (Err x) => ([], Some x)
      | None => yielded outcomes later
      end
  end.

(** What a consumer that iterates the generator to its end observes. *)
Inductive batch_run : Type :=
| Generated (values : list pyval) (ending : option raised)
            (self : HttpClient) (wire : list attempt)
| Overlapping.

(** [HttpClient.exec_multi_with_futures(name, params, api, max_workers)].
    [ThreadPoolExecutor] raises [ValueError] for a number of workers
    that is not positive, before anything is submitted.  A pool of one
    worker, or a batch of at most one call, runs the calls one after the
    other.  In a pool of several workers the calls overlap and interleave
    their rotations of the one client; that is [Overlapping], of which
    this embedding says nothing. *)
Definition exec_multi_with_futures (self : HttpClient) (wire : list attempt)
    (stack : nat) (name : string) (params : list pyval) (api : option string)
    (max_workers : option Z) (order : list nat) : batch_run :=
  let in_turn :=
    let '(outcomes, self', wire') := submitted self wire stack name params api in
    let '(values, ending) := yielded outcomes order in
    Generated values ending self' wire' in
  match max_workers with
  | Some workers =>
      if Z.leb workers 0 then Generated [] (Some ValueError) self wire
      else if Z.eqb workers 1 || Nat.leb (List.length params) 1 then in_turn
      else Overlapping
  | None =>
      if Nat.leb (List.length params) 1 then in_turn else Overlapping
  end.

End Transport.

(** [n] calls of [next_node] in a row. *)
Fixpoint rotate (n : nat) (self : HttpClient) : res HttpClient :=
  match n with
  | O => Ok self
  | S m => self' <- next_node self ;; rotate m self'
  end.

(** The clients a program can hold: built by the constructor, then
    driven through [next_node] and [exec]. *)
Inductive reachable (endpoints : list string) : HttpClient -> Prop :=
| reach_init kw self :
    __init__ endpoints kw = Ok self -> reachable endpoints self
| reach_next_node self self' :
    reachable endpoints self -> next_node self = Ok self' ->
    reachable endpoints self'
| reach_exec urlopen urlparse self wire stack name args api return_with_args
             r self' wire' :
    reachable endpoints self ->
    exec urlopen urlparse self wire stack name args api return_with_args 0
      = (r, self', wire') ->
    reachable endpoints self'.

(** The position in the list of the endpoint that is active: the one
    before the cursor of the cycle. *)
Definition active_index (self : HttpClient) : nat :=
  let n := List.length (saved (nodes self)) in
  Nat.modulo (cursor (nodes self) + n - 1) n.

(** The cursor is inside the list and the active endpoint is the item
    the cycle yielded last. *)
Definition rotation_ok (endpoints : list string) (self : HttpClient) : Prop :=
  saved (nodes self) = endpoints /\
  (cursor (nodes self) < List.length endpoints)%nat /\
  nth_error endpoints (active_index self) = Some (url self).

(** The [_ret_cnt] values [c], [c+1], ..., [c+n-1]. *)
Definition count_from (c : Z) (n : nat) : list Z :=
  map (fun i => c + Z.of_nat i) (seq 0 n).

(** ** Worked calls *)

(** [urlparse] on the URLs of the worked calls, which are a scheme, two
    slashes and the host name: the parse has that host name, and a URL
    with one of the two brackets but not the other is rejected, as
    [urlsplit] does with its "Invalid IPv6 URL". *)
Fixpoint after_slashes (text : string) : string :=
  match text with
  | String "/"%char (String "/"%char rest) => rest
  | String _ rest => after_slashes rest
  | EmptyString => EmptyString
  end.

Fixpoint has_char (c : ascii) (text : string) : bool :=
  match text with
  | EmptyString => false
  | String d rest => Ascii.eqb c d || has_char c rest
  end.

Definition plain_urlparse (url : string) : parse_outcome :=
  let netloc := after_slashes url in
  if xorb (has_char "["%char netloc) (has_char "]"%char netloc)
  then Rejected
  else Parsed (PyStr netloc).

(** Nested calls that the default recursion limit of 1000 frames has
    room for, at two frames ([failover] and [exec]) to the call, under
    a caller that is itself some frames deep. *)
Definition room : nat := 400.

Definition MaxRetryError : Exception :=
  {| exc_class := "MaxRetryError"; exc_args := "Connection refused" |}.

(** A transport on which every request fails. *)
Definition unreachable_network
    : nat -> string -> request_body -> Exception + HTTPResponse :=
  fun _ _ _ => inl MaxRetryError.

(** A transport on which every request is answered with a result. *)
Definition healthy_network
    : nat -> string -> request_body -> Exception + HTTPResponse :=
  fun _ _ _ =>
    inr {| status := 200;
           data := Some (PyDict [("id"%string, PyInt 0);
                                 ("result"%string, PyInt 42)]) |}.

Definition three_nodes : list string :=
  ["https://node1"; "https://node2"; "https://node3"]%string.

Definition with_budget (K : Z) : kwargs :=
  {| kw_return_with_args := None; kw_max_workers := None;
     kw_max_failovers := Some K |}.

Definition pairing_by_default : kwargs :=
  {| kw_return_with_args := Some true; kw_max_workers := None;
     kw_max_failovers := None |}.

(** The client that [HttpClient(three_nodes, max_failovers=K)] builds. *)
Definition client_of_three (K : Z) : HttpClient :=
  {| return_with_args := false;
     max_workers := None;
     max_failovers := K;
     nodes := {| saved := three_nodes; cursor := 1 |};
     url := "https://node1" |}.

(** A transport on which every request meets a gateway error. *)
Definition bad_gateway : HTTPResponse := {| status := 502; data := None |}.

Definition failing_gateway
    : nat -> string -> request_body -> Exception + HTTPResponse :=
  fun _ _ _ => inr bad_gateway.

(** A transport that answers with a body holding no result and no
    error. *)
Definition bare_reply : HTTPResponse :=
  {| status := 200; data := Some (PyDict [("id"%string, PyInt 0)]) |}.

Definition bare_network
    : nat -> string -> request_body -> Exception + HTTPResponse :=
  fun _ _ _ => inr bare_reply.

(** A transport that answers with an error entry that is a str. *)
Definition terse_reply : HTTPResponse :=
  {| status := 200;
     data := Some (PyDict [("id"%string, PyInt 0);
                           ("error"%string, PyStr "Internal Error")]) |}.

Definition terse_network
    : nat -> string -> request_body -> Exception + HTTPResponse :=
  fun _ _ _ => inr terse_reply.

(** The three nodes with a mistyped address in the first place, and the
    client built on them. *)
Definition mistyped_nodes : list string :=
  ["https://[node1"; "https://node2"; "https://node3"]%string.

Definition client_of_mistyped (K : Z) : HttpClient :=
  {| return_with_args := false;
     max_workers := None;
     max_failovers := K;
     nodes := {| saved := mistyped_nodes; cursor := 1 |};
     url := "https://[node1" |}.

(** A transport that answers with a JSON-RPC error object. *)
Definition rpc_error_reply : HTTPResponse :=
  {| status := 200;
     data := Some (PyDict
       [("id"%string, PyInt 0);
        ("error"%string,
         PyDict [("code"%string, PyInt 10);
                 ("message"%string, PyStr "Assert Exception");
                 ("detail"%string, PyStr "missing required active authority")])]) |}.

Definition rpc_error_network
    : nat -> string -> request_body -> Exception + HTTPResponse :=
  fun _ _ _ => inr rpc_error_reply.

(** A transport whose error object has a detail and no message. *)
Definition detail_only_reply : HTTPResponse :=
  {| status := 200;
     data := Some (PyDict
       [("error"%string, PyDict [("detail"%string, PyStr "overloaded")])]) |}.

Definition detail_only_network
    : nat -> string -> request_body -> Exception + HTTPResponse :=
  fun _ _ _ => inr detail_only_reply.

(** A transport that answers 200 with bytes that are not JSON. *)
Definition garbled_reply : HTTPResponse := {| status := 200; data := None |}.

Definition garbled_network
    : nat -> string -> request_body -> Exception + HTTPResponse :=
  fun _ _ _ => inr garbled_reply.

(** A transport that answers 200 with a JSON array. *)
Definition array_reply : HTTPResponse :=
  {| status := 200; data := Some (PyList [PyInt 1; PyInt 2]) |}.

Definition array_network
    : nat -> string -> request_body -> Exception + HTTPResponse :=
  fun _ _ _ => inr array_reply.

Definition good_reply : HTTPResponse :=
  {| status := 200;
     data := Some (PyDict [("id"%string, PyInt 0);
                           ("result"%string, PyInt 42)]) |}.

(** A transport on which the first two requests are refused and the
    later ones are answered. *)
Definition flaky_network
    : nat -> string -> request_body -> Exception + HTTPResponse :=
  fun n _ _ => if Nat.ltb n 2 then inl MaxRetryError else inr good_reply.

(** Three calls, run: one on the transport that refuses, one on the
    transport that answers, one on the transport that answers the third
    request. *)
Definition refused_call : res pyval * HttpClient * list attempt :=
  exec unreachable_network plain_urlparse (client_of_three 2) [] room
       "get_followers" [PyStr "furion"] (Some "follow_api"%string) None 0.

Definition answered_call : res pyval * HttpClient * list attempt :=
  exec healthy_network plain_urlparse (client_of_three 10) [] room
       "get_account_count" [] None (Some true) 0.

Definition flaky_call : res pyval * HttpClient * list attempt :=
  exec flaky_network plain_urlparse (client_of_three 10) [] room
       "get_account_count" [] None None 0.

(** ** The branches of [exec], for the proofs *)

(** What one attempt comes to: the call ends here with [r], or it stands
    at one of the four places where [exec] tests the counter against the
    budget, with the error [x] it raises there once the budget is spent
    and whether the place formats the host name before it fails
    over. *)
Inductive verdict : Type :=
| Final (r : res pyval)
| Retryable (x : raised) (names_host : bool).

(** The verdict on what the transport answered, branch by branch as in
    [exec]; [exec_by_verdict] below proves that [exec] follows it. *)
Definition attempt_verdict (answer : Exception + HTTPResponse)
    (args : list pyval) (return_with_args : option bool) : verdict :=
  match answer with
  | inl e => Retryable (TransportExc e) true
  | inr response =>
      if is_not_200 (status response) then
        Retryable (SteemdBadResponse (BadResponse response)) true
      else
        match data response with
        | None => Retryable (SteemdBadResponse (BadResponse response)) false
        | Some response_json =>
            match contains "error" response_json with
            | Err x => Final (Err x)
            | Ok true =>
                match (error <- getitem response_json "error" ;;
                       get <- getattr_get error ;;
                       error' <- getitem response_json "error" ;;
                       message <- getitem error' "message" ;;
                       Ok (get "detail"%string message)) with
                | Err x => Final (Err x)
                | Ok error_message => Retryable (RPCError error_message) false
                end
            | Ok false =>
                match contains "result" response_json with
                | Err x => Final (Err x)
                | Ok false =>
                    Final (Err (SteemdBadResponse (BadMessage missing_result)))
                | Ok true =>
                    match getitem response_json "result" with
                    | Err x => Final (Err x)
                    | Ok result =>
                        Final (Ok (if truthy return_with_args
                                   then PyTuple [result; PyTuple args]
                                   else result))
                    end
                end
            end
        end
  end.

(** The answers after which [exec] goes to another node while budget
    remains: an exception, a status other than 200, a body that does not
    decode, a decoded body that holds an error entry. *)
Inductive retried_answer : Exception + HTTPResponse -> Prop :=
| retried_exception e : retried_answer (inl e)
| retried_status response :
    status response <> 200 -> retried_answer (inr response)
| retried_undecodable response :
    data response = None -> retried_answer (inr response)
| retried_error response response_json :
    data response = Some response_json ->
    contains "error" response_json = Ok true ->
    retried_answer (inr response).

(** The errors [exec] raises from a retry site, that is, only when the
    counter has reached the budget. *)
Definition raised_on_spent_budget (x : raised) : bool :=
  match x with
  | TransportExc _ => true
  | SteemdBadResponse (BadResponse _) => true
  | RPCError _ => true
  | _ => false
  end.

(** * Properties *)

(** ** The request builder *)

(** C6 (as amended): for every method name, argument sequence and
    namespace, the envelope is the dictionary that [json_rpc_body]
    returns or serializes; when the namespace is a non-empty string its
    method is the literal [call] and its params are the three items
    namespace, method name, argument sequence; when the namespace is
    absent or the empty string its method is the given name and its
    params are the argument sequence. *)
Theorem json_rpc_body_envelope (name : string) (args : list pyval)
    (api : option string) (_id : Z) :
  let envelope := body_dict name args api _id in
  json_rpc_body name args api false _id = inr (PyDict envelope) /\
  json_rpc_body name args api true _id = inl (Json.dumps (PyDict envelope)) /\
  (forall a, api = Some a -> a <> ""%string ->
     lookup "method" envelope = Some (PyStr "call") /\
     lookup "params" envelope
       = Some (PyList [PyStr a; PyStr name; PyTuple args])) /\
  (api = None \/ api = Some ""%string ->
     lookup "method" envelope = Some (PyStr name) /\
     lookup "params" envelope = Some (PyTuple args)).
Proof.
  cbv zeta. repeat split.
  - unfold body_dict. subst api. simpl.
    destruct (String.eqb_spec a ""); [contradiction | reflexivity].
  - unfold body_dict. subst api. simpl.
    destruct (String.eqb_spec a ""); [contradiction | reflexivity].
  - destruct H as [-> | ->]; reflexivity.
  - destruct H as [-> | ->]; reflexivity.
Qed.

Lemma json_rpc_body_envelope_witness :
  lookup "method" (body_dict "get_followers" [PyStr "furion"] (Some "follow_api"%string) 0)
    = Some (PyStr "call") /\
  lookup "method" (body_dict "get_accounts" [PyStr "furion"] None 0)
    = Some (PyStr "get_accounts").
Proof.
  split.
  - destruct (json_rpc_body_envelope "get_followers" [PyStr "furion"]
                (Some "follow_api"%string) 0) as (_ & _ & Hcall & _).
    apply (Hcall "follow_api"%string); [reflexivity | discriminate].
  - destruct (json_rpc_body_envelope "get_accounts" [PyStr "furion"] None 0)
      as (_ & _ & _ & Hplain).
    apply Hplain. left. reflexivity.
Defined.

(** C6 (as stated) fails for the namespace [""]: it is a string, it is
    passed, and the envelope is the one without a namespace. *)
Lemma json_rpc_body_empty_api :
  let envelope := body_dict "get_followers" [PyStr "furion"] (Some ""%string) 0 in
  lookup "method" envelope = Some (PyStr "get_followers") /\
  lookup "method" envelope <> Some (PyStr "call") /\
  lookup "params" envelope
    <> Some (PyList [PyStr ""; PyStr "get_followers"; PyTuple [PyStr "furion"]]).
Proof.
  cbv zeta. repeat split; vm_compute; discriminate.
Qed.

(** ** One attempt *)

Section OneAttempt.

Variable urlopen : nat -> string -> request_body -> Exception + HTTPResponse.
Variable urlparse : string -> parse_outcome.
Variables (self : HttpClient) (wire : list attempt) (stack : nat).
Variables (name : string) (args : list pyval) (api : option string).
Variables (return_with_args : option bool) (_ret_cnt : Z).

Local Abbreviation body := (json_rpc_body name args api true 0).
Local Abbreviation wire' := (wire ++ [logged self body _ret_cnt])%list.
Local Abbreviation call :=
  (exec urlopen urlparse self wire stack name args api return_with_args _ret_cnt).
Local Abbreviation answer := (urlopen (List.length wire) (url self) body).



(** C5: a decoded body that holds neither an error entry nor a result
    entry ends the call at once with a raised error: nothing is
    retried, the client keeps its node, whatever the budget.  On a
    dictionary the error is the [SteemdBadResponse] that names the
    missing result. *)
Theorem missing_result_is_fatal (response : HTTPResponse) (response_json : pyval) :
  answer = inr response ->
  status response = 200 ->
  data response = Some response_json ->
  contains "error" response_json <> Ok true ->
  contains "result" response_json <> Ok true ->
  (exists x, call = (Err x, self, wire')) /\
  (forall entries, response_json = PyDict entries ->
     call = (Err (SteemdBadResponse (BadMessage missing_result)), self, wire')).
Proof.
  intros Hanswer Hstatus Hdata Herror Hresult.
  assert (Hcall :
    call = match contains "error" response_json with
           | Err x => (Err x, self, wire')
           | _ => match contains "result" response_json with
                  | Err x => (Err x, self, wire')
                  | _ => (Err (SteemdBadResponse (BadMessage missing_result)),
                          self, wire')
                  end
           end).
  { rewrite exec_equation_1. cbv zeta.
    rewrite Hanswer, Hstatus, Hdata. unfold is_not_200. simpl.
    destruct (contains "error" response_json) as [[|]|]; try reflexivity;
      [congruence |].
    destruct (contains "result" response_json) as [[|]|]; try reflexivity.
    congruence. }
  split.
  - rewrite Hcall.
    destruct (contains "error" response_json) as [[|]|]; eauto;
      destruct (contains "result" response_json) as [[|]|]; eauto.
  - intros entries ->. rewrite Hcall. simpl in *.
    destruct (lookup "error" entries); [congruence |].
    destruct (lookup "result" entries); [congruence | reflexivity].
Qed.

(** C10: when the error entry of the decoded body is not a mapping, or
    is a mapping without a detail key and without a message key, the
    call raises [AttributeError] (no [get] on the value) or
    [KeyError] (no message) at once: neither of them is an error the
    client constructs, nothing is retried and the client keeps its
    node, whatever the budget. *)
Theorem malformed_error_entry_raises (response : HTTPResponse)
    (entries : list (string * pyval)) (error : pyval) :
  answer = inr response ->
  status response = 200 ->
  data response = Some (PyDict entries) ->
  lookup "error" entries = Some error ->
  (forall fields, error <> PyDict fields) \/
  (exists fields, error = PyDict fields /\
     lookup "detail" fields = None /\ lookup "message" fields = None) ->
  exists x,
    call = (Err x, self, wire') /\
    ((forall fields, error <> PyDict fields) -> x = AttributeError) /\
    ((exists fields, error = PyDict fields) -> x = KeyError "message").
Proof.
  intros Hanswer Hstatus Hdata Herror Hshape.
  rewrite exec_equation_1. cbv zeta.
  rewrite Hanswer, Hstatus, Hdata. unfold is_not_200. simpl.
  rewrite Herror. simpl.
  destruct Hshape as [Hnot | (fields & -> & Hdetail & Hmessage)].
  - exists AttributeError. repeat split.
    + destruct error; try reflexivity. exfalso. eapply Hnot. reflexivity.
    + intros (fields & ->). exfalso. eapply Hnot. reflexivity.
  - exists (KeyError "message"). repeat split.
    + simpl. rewrite Hmessage. reflexivity.
    + intros Hnot. exfalso. eapply Hnot. reflexivity.
Qed.

End OneAttempt.


(** ** The shape of one call of [exec] *)

Lemma next_node_max_failovers (self self' : HttpClient) :
  next_node self = Ok self' -> max_failovers self' = max_failovers self.
Proof.
  unfold next_node. destruct (next (nodes self)) as [[u it] |]; [| discriminate].
  intros [= <-]. reflexivity.
Qed.

Lemma next_node_err (self : HttpClient) (e : raised) :
  next_node self = Err e -> e = StopIteration.
Proof.
  unfold next_node. destruct (next (nodes self)) as [[u it] |]; congruence.
Qed.

(** [exec] sends one request, and then follows the verdict on the
    answer: the four retry sites apply one policy. *)
Lemma exec_by_verdict
    (urlopen : nat -> string -> request_body -> Exception + HTTPResponse)
    (urlparse : string -> parse_outcome)
    (self : HttpClient) (wire : list attempt) (stack : nat) (name : string)
    (args : list pyval) (api : option string)
    (return_with_args : option bool) (_ret_cnt : Z) :
  exec urlopen urlparse self wire stack name args api return_with_args _ret_cnt
  = let body := json_rpc_body name args api true 0 in
    let wire' := (wire ++ [logged self body _ret_cnt])%list in
    match attempt_verdict (urlopen (List.length wire) (url self) body)
            args return_with_args with
    | Final r => (r, self, wire')
    | Retryable x names_host =>
        if Z_ge_dec _ret_cnt (max_failovers self) then (Err x, self, wire')
        else
          match (if names_host then hostname urlparse self else Ok PyNone) with
          | Err e => (Err e, self, wire')
          | Ok _ =>
              match stack with
              | O => (Err RecursionError, self, wire')
              | S room =>
                  match next_node self with
                  | Ok self' =>
                      exec urlopen urlparse self' wire' room name args None
                           return_with_args (_ret_cnt + 1)
                  | Err e => (Err e, self, wire')
                  end
              end
          end
    end.
Proof.
  rewrite exec_equation_1. cbv zeta. unfold attempt_verdict, next_node.
  destruct (urlopen (List.length wire) (url self)
              (json_rpc_body name args api true 0)) as [e0 | response].
  - destruct (Z_ge_dec _ret_cnt (max_failovers self)); [reflexivity |].
    destruct (hostname urlparse self); [| reflexivity].
    destruct stack; [reflexivity |].
    destruct (next (nodes self)) as [[u it] |]; reflexivity.
  - repeat
      match goal with
      | |- context [match hostname ?p ?s with _ => _ end] =>
          destruct (hostname p s)
      | |- context [match stack with _ => _ end] => destruct stack
      | |- context [if is_not_200 ?s then _ else _] => destruct (is_not_200 s)
      | |- context [if truthy ?f then _ else _] => destruct (truthy f)
      | |- context [match Z_ge_dec ?a ?b with _ => _ end] =>
          destruct (Z_ge_dec a b)
      | |- context [match next ?it with _ => _ end] =>
          destruct (next it) as [[? ?] |]
      | |- context [match data ?r with _ => _ end] => destruct (data r)
      | |- context [match contains ?k ?j with _ => _ end] =>
          destruct (contains k j) as [[|] |]
      | |- context [match getitem ?j ?k with _ => _ end] =>
          destruct (getitem j k)
      | |- context [match bind ?m ?k with _ => _ end] => destruct (bind m k)
      end; reflexivity.
Qed.

(** A call of [exec] sends one request and then either ends, leaving the
    client as it found it, or rotates and calls itself with the counter
    raised by one, which it only does below the budget. *)
Lemma exec_step
    (urlopen : nat -> string -> request_body -> Exception + HTTPResponse)
    (urlparse : string -> parse_outcome)
    (self : HttpClient) (wire : list attempt) (stack : nat) (name : string)
    (args : list pyval) (api : option string)
    (return_with_args : option bool) (_ret_cnt : Z) :
  let body := json_rpc_body name args api true 0 in
  let wire' := (wire ++ [logged self body _ret_cnt])%list in
  (exists r,
     exec urlopen urlparse self wire stack name args api return_with_args _ret_cnt
       = (r, self, wire') /\
     forall e, urlopen (List.length wire) (url self) body = inl e ->
       (_ret_cnt >= max_failovers self /\ r = Err (TransportExc e)) \/
       (_ret_cnt < max_failovers self /\
        (r = Err ValueError \/ r = Err RecursionError \/
         r = Err StopIteration))) \/
  (_ret_cnt < max_failovers self /\
   exists self' room,
     stack = S room /\
     next_node self = Ok self' /\
     exec urlopen urlparse self wire stack name args api return_with_args _ret_cnt
       = exec urlopen urlparse self' wire' room name args None
              return_with_args (_ret_cnt + 1)).
Proof.
  cbv zeta. rewrite exec_by_verdict. cbv zeta.
  destruct (urlopen (List.length wire) (url self)
              (json_rpc_body name args api true 0)) as [e0 | response] eqn:Hanswer.
  - simpl attempt_verdict.
    destruct (Z_ge_dec _ret_cnt (max_failovers self)) as [Hspent | Hleft].
    { left. eexists. split; [reflexivity |].
      intros e [= <-]. left. split; [assumption | reflexivity]. }
    assert (Hlt : _ret_cnt < max_failovers self) by lia.
    unfold hostname. destruct (urlparse (url self)).
    2:{ left. eexists. split; [reflexivity |]. intros e _. right. tauto. }
    destruct stack as [| room].
    { left. eexists. split; [reflexivity |]. intros e _. right. tauto. }
    destruct (next_node self) as [self' | x] eqn:Hnext.
    + right. split; [exact Hlt |]. exists self', room. repeat split.
    + apply next_node_err in Hnext. subst x.
      left. eexists. split; [reflexivity |]. intros e _. right. tauto.
  - destruct (attempt_verdict (inr response) args return_with_args)
      as [r | x names_host].
    { left. eexists. split; [reflexivity |]. intros ? [=]. }
    destruct (Z_ge_dec _ret_cnt (max_failovers self)) as [Hspent | Hleft].
    { left. eexists. split; [reflexivity |]. intros ? [=]. }
    destruct (if names_host then hostname urlparse self else Ok PyNone).
    2:{ left. eexists. split; [reflexivity |]. intros ? [=]. }
    destruct stack as [| room].
    { left. eexists. split; [reflexivity |]. intros ? [=]. }
    destruct (next_node self) as [self' | x'] eqn:Hnext.
    + right. split; [lia |]. exists self', room. repeat split.
    + left. eexists. split; [reflexivity |]. intros ? [=].
Qed.

(** ** Counters and termination *)

Lemma count_from_S (c : Z) (n : nat) :
  count_from c (S n) = c :: count_from (c + 1) n.
Proof.
  unfold count_from. simpl. rewrite Z.add_0_r. f_equal.
  rewrite <- seq_shift, map_map. apply map_ext. intros i. lia.
Qed.

Lemma one_request_counted (a : attempt) (budget c : Z) :
  sent_ret_cnt a = c ->
  (1 <= List.length [a] <= Z.to_nat (budget - c) + 1)%nat /\
  map sent_ret_cnt [a] = count_from c (List.length [a]) /\
  (forall c', In c' (map sent_ret_cnt [a]) -> c' = c \/ c' <= budget).
Proof.
  intros <-. simpl. split; [lia |]. split.
  - unfold count_from. simpl. rewrite Z.add_0_r. reflexivity.
  - intros c' [<- | []]. left. reflexivity.
Qed.

(** C9: every call of [exec] ends, with a returned value or a raised
    error, after at least one and at most (budget - counter) + 1
    requests; the counter of each request is one more than that of the
    request before, so no retry is made beyond the budget. *)
Theorem exec_terminates
    (urlopen : nat -> string -> request_body -> Exception + HTTPResponse)
    (urlparse : string -> parse_outcome)
    (self : HttpClient) (wire : list attempt) (stack : nat) (name : string)
    (args : list pyval) (api : option string)
    (return_with_args : option bool) (_ret_cnt : Z) :
  exists r self' sent,
    exec urlopen urlparse self wire stack name args api return_with_args _ret_cnt
      = (r, self', (wire ++ sent)%list) /\
    (1 <= List.length sent
       <= Z.to_nat (max_failovers self - _ret_cnt) + 1)%nat /\
    map sent_ret_cnt sent = count_from _ret_cnt (List.length sent) /\
    (forall c, In c (map sent_ret_cnt sent) ->
       c = _ret_cnt \/ c <= max_failovers self).
Proof.
  pose (n := Z.to_nat (max_failovers self - _ret_cnt)).
  assert (Hn : n = Z.to_nat (max_failovers self - _ret_cnt)) by reflexivity.
  clearbody n. revert self wire stack api _ret_cnt Hn.
  induction n as [| n IH]; intros self wire stack api _ret_cnt Hn;
    destruct (exec_step urlopen urlparse self wire stack name args api
                return_with_args _ret_cnt)
      as [(r & Hcall & _) | (Hleft & self' & room & -> & Hnext & Hcall)].
  - exists r, self, [logged self (json_rpc_body name args api true 0) _ret_cnt].
    rewrite Hcall. split; [reflexivity |]. apply one_request_counted. reflexivity.
  - lia.
  - exists r, self, [logged self (json_rpc_body name args api true 0) _ret_cnt].
    rewrite Hcall. split; [reflexivity |]. apply one_request_counted. reflexivity.
  - pose proof (next_node_max_failovers self self' Hnext) as Hmf.
    destruct (IH self'
                (wire ++ [logged self (json_rpc_body name args api true 0) _ret_cnt])%list
                room None (_ret_cnt + 1))
      as (r & self'' & sent & Hrec & Hlen & Hcnt & Hbound); [lia |].
    exists r, self'',
      (logged self (json_rpc_body name args api true 0) _ret_cnt :: sent).
    rewrite Hcall, Hrec, <- app_assoc. simpl.
    split; [reflexivity |]. split; [lia |]. split.
    + rewrite count_from_S, Hcnt. reflexivity.
    + intros c [<- | Hin]; [left; reflexivity |].
      right. rewrite Hcnt in Hin. unfold count_from in Hin.
      apply in_map_iff in Hin. destruct Hin as (i & <- & Hi).
      apply in_seq in Hi. rewrite Hmf in Hlen. lia.
Qed.

(** ** Transport errors *)

(** C7: when the last request of a call was sent with the budget spent
    and the transport raised [e] on it, the call raises [e] itself, not
    an error of the client's own making. *)
Theorem transport_error_reraised
    (urlopen : nat -> string -> request_body -> Exception + HTTPResponse)
    (urlparse : string -> parse_outcome)
    (self : HttpClient) (wire : list attempt) (stack : nat) (name : string)
    (args : list pyval) (api : option string)
    (return_with_args : option bool) (_ret_cnt : Z)
    (r : res pyval) (self' : HttpClient) (front : list attempt)
    (last : attempt) (e : Exception) :
  exec urlopen urlparse self wire stack name args api return_with_args _ret_cnt
    = (r, self', (front ++ [last])%list) ->
  sent_ret_cnt last >= max_failovers self ->
  urlopen (List.length front) (sent_to last) (sent_body last) = inl e ->
  r = Err (TransportExc e).
Proof.
  remember (Z.to_nat (max_failovers self - _ret_cnt)) as n eqn:Hn.
  revert self wire stack api _ret_cnt Hn.
  induction n as [| n IH];
    intros self wire stack api _ret_cnt Hn Hexec Hspent Hraise;
    destruct (exec_step urlopen urlparse self wire stack name args api
                return_with_args _ret_cnt)
      as [(r0 & Hcall & Hshape) | (Hleft & self1 & room & -> & Hnext & Hcall)];
    try lia.
  - rewrite Hcall in Hexec. injection Hexec as <- <- Hwire.
    apply app_inj_tail in Hwire. destruct Hwire as [<- <-].
    simpl in Hspent, Hraise.
    destruct (Hshape e Hraise) as [[_ ->] | [Hlt _]]; [reflexivity | lia].
  - rewrite Hcall in Hexec. injection Hexec as <- <- Hwire.
    apply app_inj_tail in Hwire. destruct Hwire as [<- <-].
    simpl in Hspent, Hraise.
    destruct (Hshape e Hraise) as [[_ ->] | [Hlt _]]; [reflexivity | lia].
  - pose proof (next_node_max_failovers self self1 Hnext) as Hmf.
    rewrite Hcall in Hexec.
    eapply IH; [| exact Hexec | rewrite Hmf; exact Hspent | exact Hraise].
    lia.
Qed.

(** ** Rotation *)

Lemma active_index_lt (endpoints : list string) (self : HttpClient) :
  rotation_ok endpoints self ->
  (active_index self < List.length endpoints)%nat.
Proof.
  intros (Hsaved & Hcursor & _). unfold active_index. rewrite Hsaved.
  apply Nat.mod_upper_bound. lia.
Qed.

(** One rotation: it cannot fail on a client whose cursor is inside the
    list, it touches the cursor and the active endpoint only, and the
    endpoint that becomes active is the one the cursor pointed at. *)
Lemma next_node_rotation_ok (endpoints : list string) (self : HttpClient) :
  rotation_ok endpoints self ->
  exists self',
    next_node self = Ok self' /\
    rotation_ok endpoints self' /\
    return_with_args self' = return_with_args self /\
    max_workers self' = max_workers self /\
    max_failovers self' = max_failovers self /\
    cursor (nodes self')
      = Nat.modulo (S (cursor (nodes self))) (List.length endpoints) /\
    active_index self'
      = Nat.modulo (S (active_index self)) (List.length endpoints).
Proof.
  destruct self as [rwa mw mf [sv c] u].
  unfold rotation_ok, next_node, next, active_index. simpl.
  intros (-> & Hcursor & Hurl).
  destruct (nth_error endpoints c) as [item |] eqn:Hitem.
  2:{ apply nth_error_None in Hitem. lia. }
  eexists. split; [reflexivity |]. simpl.
  set (N := List.length endpoints) in *.
  assert (Hactive : Nat.modulo (c + N - 1) N
                    = if Nat.eqb c 0 then (N - 1)%nat else (c - 1)%nat).
  { destruct (Nat.eqb_spec c 0) as [-> | Hc].
    - simpl. apply Nat.mod_small. lia.
    - replace (c + N - 1)%nat with (c - 1 + 1 * N)%nat by lia.
      rewrite Nat.Div0.mod_add. apply Nat.mod_small. lia. }
  assert (Hnext : Nat.modulo (S c) N
                  = if Nat.ltb (S c) N then S c else 0%nat).
  { destruct (Nat.ltb_spec (S c) N) as [Hlt | Hge].
    - apply Nat.mod_small. exact Hlt.
    - replace (S c) with N by lia. apply Nat.Div0.mod_same. }
  assert (Hnew : Nat.modulo ((if Nat.ltb (S c) N then S c else 0%nat) + N - 1) N = c).
  { destruct (Nat.ltb_spec (S c) N) as [Hlt | Hge].
    - replace (S c + N - 1)%nat with (c + 1 * N)%nat by lia.
      rewrite Nat.Div0.mod_add. apply Nat.mod_small. lia.
    - simpl. rewrite Nat.mod_small; lia. }
  repeat split.
  - destruct (Nat.ltb_spec (S c) N); lia.
  - rewrite Hnew. exact Hitem.
  - symmetry. exact Hnext.
  - rewrite Hnew, Hactive.
    destruct (Nat.eqb_spec c 0) as [-> | Hc].
    + replace (S (N - 1)) with N by lia. symmetry. apply Nat.Div0.mod_same.
    + replace (S (c - 1)) with c by lia. symmetry. apply Nat.mod_small. lia.
Qed.

(** [k] rotations in a row. *)
Lemma rotate_rotation_ok (endpoints : list string) (k : nat) (self : HttpClient) :
  rotation_ok endpoints self ->
  exists self',
    rotate k self = Ok self' /\
    rotation_ok endpoints self' /\
    return_with_args self' = return_with_args self /\
    max_workers self' = max_workers self /\
    max_failovers self' = max_failovers self /\
    cursor (nodes self')
      = Nat.modulo (cursor (nodes self) + k) (List.length endpoints) /\
    active_index self'
      = Nat.modulo (active_index self + k) (List.length endpoints).
Proof.
  revert self. induction k as [| k IH]; intros self Hok.
  - exists self. simpl. rewrite !Nat.add_0_r.
    pose proof (active_index_lt endpoints self Hok) as Hlt.
    destruct Hok as (Hsaved & Hcursor & Hurl).
    repeat split; try assumption; try reflexivity;
      symmetry; apply Nat.mod_small; assumption.
  - destruct (next_node_rotation_ok endpoints self Hok)
      as (self1 & Hnext & Hok1 & Hrwa1 & Hmw1 & Hmf1 & Hcur1 & Hact1).
    destruct (IH self1 Hok1)
      as (self' & Hrot & Hok' & Hrwa & Hmw & Hmf & Hcur & Hact).
    exists self'. simpl. rewrite Hnext. simpl.
    split; [exact Hrot |]. split; [exact Hok' |].
    split; [congruence |]. split; [congruence |]. split; [congruence |].
    split.
    + rewrite Hcur, Hcur1, Nat.Div0.add_mod_idemp_l. f_equal. lia.
    + rewrite Hact, Hact1, Nat.Div0.add_mod_idemp_l. f_equal. lia.
Qed.

Lemma init_rotation_ok (endpoints : list string) (kw : kwargs) (self : HttpClient) :
  __init__ endpoints kw = Ok self -> rotation_ok endpoints self.
Proof.
  unfold __init__, next_node, next. simpl.
  destruct endpoints as [| first rest]; simpl; [discriminate |].
  intros [= <-]. unfold rotation_ok, active_index, set_node, with_nodes.
  cbn [nodes saved cursor url List.length].
  split; [reflexivity |].
  set (N := S (List.length rest)).
  assert (HN : (0 < N)%nat) by (subst N; lia).
  destruct (Nat.ltb_spec 1 N) as [Hlt | Hge].
  - split; [lia |].
    replace (1 + N - 1)%nat with N by lia.
    rewrite Nat.Div0.mod_same. reflexivity.
  - split; [lia |].
    replace (0 + N - 1)%nat with 0%nat by lia.
    rewrite Nat.Div0.mod_0_l. reflexivity.
Qed.

Lemma exec_rotation_ok
    (urlopen : nat -> string -> request_body -> Exception + HTTPResponse)
    (urlparse : string -> parse_outcome)
    (endpoints : list string) (self : HttpClient) (wire : list attempt)
    (stack : nat)
    (name : string) (args : list pyval) (api : option string)
    (return_with_args : option bool) (_ret_cnt : Z)
    (r : res pyval) (self' : HttpClient) (wire' : list attempt) :
  rotation_ok endpoints self ->
  exec urlopen urlparse self wire stack name args api return_with_args _ret_cnt
    = (r, self', wire') ->
  rotation_ok endpoints self'.
Proof.
  pose (n := Z.to_nat (max_failovers self - _ret_cnt)).
  assert (Hn : n = Z.to_nat (max_failovers self - _ret_cnt)) by reflexivity.
  clearbody n. revert self wire stack api _ret_cnt Hn.
  induction n as [| n IH]; intros self wire stack api _ret_cnt Hn Hok Hexec;
    destruct (exec_step urlopen urlparse self wire stack name args api
                return_with_args _ret_cnt)
      as [(r0 & Hcall & _) | (Hleft & self1 & room & -> & Hnext & Hcall)];
    try lia.
  - rewrite Hcall in Hexec. injection Hexec as <- <- <-. exact Hok.
  - rewrite Hcall in Hexec. injection Hexec as <- <- <-. exact Hok.
  - destruct (next_node_rotation_ok endpoints self Hok)
      as (self2 & Hnext2 & Hok2 & _ & _ & Hmf & _).
    rewrite Hnext in Hnext2. injection Hnext2 as <-.
    rewrite Hcall in Hexec.
    eapply IH; [| exact Hok2 | exact Hexec]. lia.
Qed.

Lemma reachable_rotation_ok (endpoints : list string) (self : HttpClient) :
  reachable endpoints self -> rotation_ok endpoints self.
Proof.
  induction 1 as [kw self Hinit | self self' _ IH Hnext
                 | urlopen urlparse self wire stack name args api rwa
                     r self' wire' _ IH Hexec].
  - eapply init_rotation_ok. exact Hinit.
  - destruct (next_node_rotation_ok endpoints self IH) as (self2 & Hnext2 & Hok2 & _).
    rewrite Hnext in Hnext2. injection Hnext2 as <-. exact Hok2.
  - eapply exec_rotation_ok; eassumption.
Qed.




(** ** A transport that always raises *)

Lemma rotation_ok_url_in (endpoints : list string) (self : HttpClient) :
  rotation_ok endpoints self -> In (url self) endpoints.
Proof.
  intros (_ & _ & Hurl). eapply nth_error_In. exact Hurl.
Qed.

Lemma exec_all_raise
    (urlopen : nat -> string -> request_body -> Exception + HTTPResponse)
    (urlparse : string -> parse_outcome)
    (endpoints : list string) (name : string) (args : list pyval)
    (return_with_args : option bool) :
  (forall n node_url body, exists e, urlopen n node_url body = inl e) ->
  (forall node_url, In node_url endpoints -> urlparse node_url <> Rejected) ->
  forall (n : nat) (self : HttpClient) (wire : list attempt) (stack : nat)
         (api : option string) (_ret_cnt : Z),
    rotation_ok endpoints self ->
    n = Z.to_nat (max_failovers self - _ret_cnt) ->
    _ret_cnt <= max_failovers self ->
    (n <= stack)%nat ->
    exists e self' sent,
      exec urlopen urlparse self wire stack name args api return_with_args _ret_cnt
        = (Err (TransportExc e), self', (wire ++ sent)%list) /\
      List.length sent = S n /\
      rotate n self = Ok self'.
Proof.
  intros Hraise Hparse. induction n as [| n IH];
    intros self wire stack api _ret_cnt Hok Hn Hle Hroom;
    destruct (Hraise (List.length wire) (url self)
                (json_rpc_body name args api true 0)) as [e He];
    rewrite exec_by_verdict; cbv zeta; rewrite He; simpl attempt_verdict;
    destruct (Z_ge_dec _ret_cnt (max_failovers self)) as [Hspent | Hleft];
    try lia.
  - exists e, self, [logged self (json_rpc_body name args api true 0) _ret_cnt].
    repeat split.
  - pose proof (Hparse (url self) (rotation_ok_url_in endpoints self Hok)) as Hurl.
    unfold hostname. destruct (urlparse (url self)); [| contradiction].
    destruct stack as [| room]; [lia |].
    destruct (next_node_rotation_ok endpoints self Hok)
      as (self1 & Hnext & Hok1 & _ & _ & Hmf & _).
    rewrite Hnext.
    destruct (IH self1
                (wire ++ [logged self (json_rpc_body name args api true 0) _ret_cnt])%list
                room None (_ret_cnt + 1) Hok1)
      as (e' & self' & sent & Hrec & Hlen & Hrot); [lia | lia | lia |].
    exists e', self',
      (logged self (json_rpc_body name args api true 0) _ret_cnt :: sent).
    rewrite Hrec, <- app_assoc. simpl. rewrite Hnext. simpl.
    repeat split; [lia | exact Hrot].
Qed.

Lemma client_of_mistyped_init (K : Z) :
  __init__ mistyped_nodes (with_budget K) = Ok (client_of_mistyped K).
Proof. reflexivity. Qed.

(** C3 (as stated) fails in two ways.  On a client whose first node has
    an address that [urlparse] rejects, a budget of 2 and a transport
    that raises on every request, the call sends one request and raises
    [ValueError] from the host name it logs.  On three good nodes and a
    budget of 600, more than the interpreter has room to nest, the call
    raises [RecursionError] with the budget unspent, after one request
    and then one for each nested call. *)
Lemma budget_not_exhausted :
  __init__ mistyped_nodes (with_budget 2) = Ok (client_of_mistyped 2) /\
  exec unreachable_network plain_urlparse (client_of_mistyped 2) [] room
       "get_accounts" [PyStr "furion"] None None 0
  = (Err ValueError, client_of_mistyped 2,
     [logged (client_of_mistyped 2)
             (json_rpc_body "get_accounts" [PyStr "furion"] None true 0) 0]) /\
  exists self' sent,
    exec unreachable_network plain_urlparse (client_of_three 600) [] room
         "get_accounts" [PyStr "furion"] None None 0
    = (Err RecursionError, self', sent) /\
    List.length sent = S room /\
    (List.length sent < 600 + 1)%nat.
Proof.
  split; [reflexivity |]. split; [vm_compute; reflexivity |].
  eexists _, _. split; [vm_compute; reflexivity |].
  split; [vm_compute; reflexivity | vm_compute; lia].
Qed.

(** C3 (as amended): with a budget of K >= 0 that the recursion limit
    leaves room for, endpoints whose URLs [urlparse] accepts and a
    transport that raises on every request, a call sends exactly K + 1
    requests and then raises the transport's error; the client has
    rotated K times, so its active endpoint is K places after the one
    that was active at the start, counting round the list. *)
Theorem exec_exhausts_budget
    (urlopen : nat -> string -> request_body -> Exception + HTTPResponse)
    (urlparse : string -> parse_outcome)
    (endpoints : list string) (self : HttpClient) (wire : list attempt)
    (stack : nat)
    (name : string) (args : list pyval) (api : option string)
    (return_with_args : option bool) (K : Z) :
  reachable endpoints self ->
  max_failovers self = K ->
  0 <= K ->
  (Z.to_nat K <= stack)%nat ->
  (forall node_url, In node_url endpoints -> urlparse node_url <> Rejected) ->
  (forall n node_url body, exists e, urlopen n node_url body = inl e) ->
  exists e self' sent,
    exec urlopen urlparse self wire stack name args api return_with_args 0
      = (Err (TransportExc e), self', (wire ++ sent)%list) /\
    List.length sent = (Z.to_nat K + 1)%nat /\
    rotate (Z.to_nat K) self = Ok self' /\
    nth_error endpoints
      (Nat.modulo (active_index self + Z.to_nat K) (List.length endpoints))
      = Some (url self').
Proof.
  intros Hreach HK Hpos Hroom Hparse Hraise.
  pose proof (reachable_rotation_ok endpoints self Hreach) as Hok.
  destruct (exec_all_raise urlopen urlparse endpoints name args return_with_args
              Hraise Hparse (Z.to_nat K) self wire stack api 0 Hok)
    as (e & self' & sent & Hexec & Hlen & Hrot);
    [rewrite HK; f_equal; lia | lia | exact Hroom |].
  destruct (rotate_rotation_ok endpoints (Z.to_nat K) self Hok)
    as (self2 & Hrot2 & Hok2 & _ & _ & _ & _ & Hact).
  rewrite Hrot in Hrot2. injection Hrot2 as <-.
  exists e, self', sent. repeat split; try assumption; [lia |].
  rewrite <- Hact. destruct Hok2 as (_ & _ & Hurl). exact Hurl.
Qed.

Lemma client_of_three_init (K : Z) :
  __init__ three_nodes (with_budget K) = Ok (client_of_three K).
Proof. reflexivity. Qed.

Lemma client_of_three_reachable (K : Z) :
  reachable three_nodes (client_of_three K).
Proof. eapply reach_init. apply client_of_three_init. Qed.

(** C1 at a concrete call: a namespaced call whose first request fails
    is retried once, and the retry carries another envelope: the one
    built without the namespace. *)
Theorem failover_forgets_api :
  exists r self' first second,
    exec unreachable_network plain_urlparse (client_of_three 1) [] room
         "get_followers" [PyStr "furion"] (Some "follow_api"%string) None 0
      = (r, self', [first; second]) /\
    sent_body first
      = json_rpc_body "get_followers" [PyStr "furion"]
          (Some "follow_api"%string) true 0 /\
    sent_body second
      = json_rpc_body "get_followers" [PyStr "furion"] None true 0 /\
    sent_body second <> sent_body first.
Proof.
  do 4 eexists. split; [vm_compute; reflexivity |].
  split; [reflexivity |]. split; [reflexivity |].
  vm_compute. discriminate.
Qed.

(** C2 at a concrete client: on a client built with
    [return_with_args=True], a call that does not pass
    [return_with_args] returns the bare result, and so does every item
    of a batch, in a pool of one worker whatever the order in which the
    futures are handed out, and in the default pool for a batch of one;
    only a call that passes it gets the pair. *)
Theorem client_pairing_default_unused :
  exists self,
    __init__ three_nodes pairing_by_default = Ok self /\
    return_with_args self = true /\
    fst (fst (exec healthy_network plain_urlparse self [] room
                   "get_account_count" [] None None 0))
      = Ok (PyInt 42) /\
    (exists self' wire',
       exec_multi_with_futures healthy_network plain_urlparse self [] room
         "get_account" [PyStr "a"; PyStr "b"; PyStr "c"] None (Some 1)
         [2; 0; 1]%nat
       = Generated [PyInt 42; PyInt 42; PyInt 42] None self' wire') /\
    (forall order,
       exists values ending self' wire',
         exec_multi_with_futures healthy_network plain_urlparse self [] room
           "get_account" [PyStr "a"; PyStr "b"; PyStr "c"] None (Some 1) order
         = Generated values ending self' wire' /\
         ending = None /\
         Forall (fun v => v = PyInt 42) values) /\
    (exists self' wire',
       exec_multi_with_futures healthy_network plain_urlparse self [] room
         "get_account" [PyStr "a"] None None [0]%nat
       = Generated [PyInt 42] None self' wire') /\
    fst (fst (exec healthy_network plain_urlparse self [] room
                   "get_account" [PyStr "a"] None (Some true) 0))
      = Ok (PyTuple [PyInt 42; PyTuple [PyStr "a"]]).
Proof.
  eexists. split; [reflexivity |]. split; [reflexivity |].
  split; [reflexivity |].
  split; [eexists _, _; vm_compute; reflexivity |].
  split.
  - intros order.
    assert (Hyield : exists values,
              yielded [Ok (PyInt 42); Ok (PyInt 42); Ok (PyInt 42)] order
              = (values, None) /\ Forall (fun v => v = PyInt 42) values).
    { induction order as [| i later IH].
      - exists []. split; [reflexivity | constructor].
      - destruct IH as (values & Hlater & Hall).
        destruct i as [| [| [| i]]]; simpl; rewrite Hlater;
          try (exists (PyInt 42 :: values); split;
               [reflexivity | constructor; [reflexivity | exact Hall]]).
        destruct i; exists values; split; auto. }
    destruct Hyield as (values & Hyield & Hall).
    unfold exec_multi_with_futures.
    cbn [Z.leb Z.compare Z.eqb Pos.eqb orb].
    destruct (submitted healthy_network plain_urlparse _ [] room "get_account"
                [PyStr "a"; PyStr "b"; PyStr "c"] None)
      as [[outcomes self'] wire'] eqn:Hrun.
    assert (Houtcomes : outcomes = [Ok (PyInt 42); Ok (PyInt 42); Ok (PyInt 42)]).
    { vm_compute in Hrun. injection Hrun as <- _ _. reflexivity. }
    rewrite Houtcomes, Hyield.
    exists values, None, self', wire'. repeat split. exact Hall.
  - split; [eexists _, _; vm_compute; reflexivity | reflexivity].
Qed.

(** ** The theorems at concrete calls *)

Lemma three_nodes_accepted (node_url : string) :
  In node_url three_nodes -> plain_urlparse node_url <> Rejected.
Proof.
  intros [<- | [<- | [<- | []]]]; discriminate.
Qed.

Lemma exec_exhausts_budget_witness :
  exists e self' sent,
    exec unreachable_network plain_urlparse (client_of_three 4) [] room
         "get_accounts" [PyStr "furion"] None None 0
      = (Err (TransportExc e), self', ([] ++ sent)%list) /\
    List.length sent = (Z.to_nat 4 + 1)%nat /\
    rotate (Z.to_nat 4) (client_of_three 4) = Ok self' /\
    nth_error three_nodes
      (Nat.modulo (active_index (client_of_three 4) + Z.to_nat 4)
                  (List.length three_nodes))
      = Some (url self').
Proof.
  apply (exec_exhausts_budget unreachable_network plain_urlparse three_nodes
           (client_of_three 4) [] room "get_accounts" [PyStr "furion"]
           None None 4).
  - apply client_of_three_reachable.
  - reflexivity.
  - lia.
  - unfold room. lia.
  - apply three_nodes_accepted.
  - intros n node_url body. exists MaxRetryError. reflexivity.
Defined.


Lemma missing_result_is_fatal_witness :
  exec bare_network plain_urlparse (client_of_three 10) [] room
       "get_accounts" [] None None 0
    = (Err (SteemdBadResponse (BadMessage missing_result)), client_of_three 10,
       [logged (client_of_three 10) (json_rpc_body "get_accounts" [] None true 0) 0]).
Proof.
  assert (Herror : contains "error" (PyDict [("id"%string, PyInt 0)]) <> Ok true)
    by (simpl; discriminate).
  assert (Hresult : contains "result" (PyDict [("id"%string, PyInt 0)]) <> Ok true)
    by (simpl; discriminate).
  destruct (missing_result_is_fatal bare_network plain_urlparse
              (client_of_three 10) [] room
              "get_accounts" [] None None 0 bare_reply
              (PyDict [("id"%string, PyInt 0)])
              eq_refl eq_refl eq_refl Herror Hresult)
    as [_ Hdict].
  apply (Hdict [("id"%string, PyInt 0)]). reflexivity.
Defined.

Lemma malformed_error_entry_raises_witness :
  exists x,
    exec terse_network plain_urlparse (client_of_three 10) [] room
         "get_accounts" [] None None 0
      = (Err x, client_of_three 10,
         [logged (client_of_three 10)
                 (json_rpc_body "get_accounts" [] None true 0) 0]) /\
    ((forall fields, PyStr "Internal Error" <> PyDict fields) -> x = AttributeError) /\
    ((exists fields, PyStr "Internal Error" = PyDict fields) -> x = KeyError "message").
Proof.
  apply (malformed_error_entry_raises terse_network plain_urlparse
           (client_of_three 10) [] room
           "get_accounts" [] None None 0 terse_reply
           [("id"%string, PyInt 0); ("error"%string, PyStr "Internal Error")]
           (PyStr "Internal Error")); try reflexivity.
  left. intros fields. discriminate.
Defined.

Lemma transport_error_reraised_witness :
  fst (fst (exec unreachable_network plain_urlparse (client_of_three 1) [] room
                 "get_accounts" [] None None 0))
    = Err (TransportExc MaxRetryError).
Proof.
  apply (transport_error_reraised unreachable_network plain_urlparse
           (client_of_three 1) [] room
           "get_accounts" [] None None 0
           (fst (fst (exec unreachable_network plain_urlparse
                           (client_of_three 1) [] room
                           "get_accounts" [] None None 0)))
           {| return_with_args := false; max_workers := None;
              max_failovers := 1;
              nodes := {| saved := three_nodes; cursor := 2 |};
              url := "https://node2" |}
           [logged (client_of_three 1)
                   (json_rpc_body "get_accounts" [] None true 0) 0]
           {| sent_to := "https://node2";
              sent_body := json_rpc_body "get_accounts" [] None true 0;
              sent_ret_cnt := 1 |}
           MaxRetryError).
  - vm_compute. reflexivity.
  - simpl. lia.
  - reflexivity.
Defined.


(** * Further properties of the code *)

(** ** [exec], attempt by attempt *)

Lemma rotate_S (n : nat) (self self1 : HttpClient) :
  next_node self = Ok self1 -> rotate (S n) self = rotate n self1.
Proof. intros H. simpl. rewrite H. reflexivity. Qed.

Ltac run_ends_here api :=
  exists [], api;
  cbn [List.length app Nat.eqb Z.of_nat rotate];
  rewrite Z.add_0_r, Nat.add_0_r;
  split; [reflexivity |];
  split; [reflexivity |];
  split; [reflexivity |];
  split; [left; reflexivity |];
  split; [lia |];
  split; [intros [| ?] ? ?; discriminate |].

(** The whole run of a call: the requests before the last one, each
    sent from the client rotated as many times as requests went before
    and each met by a verdict to retry; then the last request, sent from
    the client the call leaves behind, and what ended the call there. *)
Lemma exec_run
    (urlopen : nat -> string -> request_body -> Exception + HTTPResponse)
    (urlparse : string -> parse_outcome)
    (name : string) (args : list pyval) (return_with_args : option bool) :
  forall (n : nat) (self : HttpClient) (wire : list attempt) (stack : nat)
         (api : option string) (_ret_cnt : Z)
         (r : res pyval) (self' : HttpClient) (wire'' : list attempt),
    n = Z.to_nat (max_failovers self - _ret_cnt) ->
    exec urlopen urlparse self wire stack name args api return_with_args _ret_cnt
      = (r, self', wire'') ->
    exists front api',
      wire'' = (wire ++ front ++
                [logged self' (json_rpc_body name args api' true 0)
                        (_ret_cnt + Z.of_nat (List.length front))])%list /\
      api' = (if Nat.eqb (List.length front) 0 then api else None) /\
      rotate (List.length front) self = Ok self' /\
      (List.length front = 0%nat \/
       _ret_cnt + Z.of_nat (List.length front) <= max_failovers self) /\
      (List.length front <= stack)%nat /\
      (forall i a, nth_error front i = Some a ->
         exists s x names_host,
           rotate i self = Ok s /\
           a = logged s
                 (json_rpc_body name args (if Nat.eqb i 0 then api else None) true 0)
                 (_ret_cnt + Z.of_nat i) /\
           attempt_verdict
             (urlopen (List.length wire + i)%nat (url s) (sent_body a))
             args return_with_args = Retryable x names_host) /\
      (attempt_verdict
         (urlopen (List.length wire + List.length front)%nat (url self')
                  (json_rpc_body name args api' true 0))
         args return_with_args = Final r \/
       exists x names_host,
         attempt_verdict
           (urlopen (List.length wire + List.length front)%nat (url self')
                    (json_rpc_body name args api' true 0))
           args return_with_args = Retryable x names_host /\
         ((_ret_cnt + Z.of_nat (List.length front) >= max_failovers self /\
           r = Err x) \/
          (_ret_cnt + Z.of_nat (List.length front) < max_failovers self /\
           ((names_host = true /\ urlparse (url self') = Rejected /\
             r = Err ValueError) \/
            (stack = List.length front /\ r = Err RecursionError) \/
            (next_node self' = Err StopIteration /\ r = Err StopIteration))))).
Proof.
  induction n as [| n IH];
    intros self wire stack api _ret_cnt r self' wire'' Hn Hexec;
    rewrite exec_by_verdict in Hexec; cbv zeta in Hexec;
    destruct (attempt_verdict
                (urlopen (List.length wire) (url self)
                         (json_rpc_body name args api true 0))
                args return_with_args) as [r0 | x names_host] eqn:Hverdict.
  1, 3: injection Hexec as <- <- <-; run_ends_here api;
    left; exact Hverdict.
  - destruct (Z_ge_dec _ret_cnt (max_failovers self)) as [Hspent | Hleft]; [| lia].
    injection Hexec as <- <- <-. run_ends_here api.
    right. exists x, names_host. split; [exact Hverdict |].
    left. split; [lia | reflexivity].
  - destruct (Z_ge_dec _ret_cnt (max_failovers self)) as [Hspent | Hleft].
    { injection Hexec as <- <- <-. run_ends_here api.
      right. exists x, names_host. split; [exact Hverdict |].
      left. split; [lia | reflexivity]. }
    destruct (if names_host then hostname urlparse self else Ok PyNone)
      as [host | e] eqn:Hhost.
    2:{ assert (Hrejected : names_host = true /\ urlparse (url self) = Rejected
                            /\ e = ValueError).
        { destruct names_host; [| discriminate]. unfold hostname in Hhost.
          destruct (urlparse (url self)); [discriminate |].
          injection Hhost as <-. repeat split. }
        destruct Hrejected as (-> & Hrejected & ->).
        injection Hexec as <- <- <-. run_ends_here api.
        right. exists x, true. split; [exact Hverdict |]. right.
        split; [lia |]. left. repeat split. exact Hrejected. }
    destruct stack as [| room].
    { injection Hexec as <- <- <-. run_ends_here api.
      right. exists x, names_host. split; [exact Hverdict |]. right.
      split; [lia |]. right. left. split; reflexivity. }
    destruct (next_node self) as [self1 | e] eqn:Hnext.
    2:{ pose proof (next_node_err self e Hnext) as ->.
        injection Hexec as <- <- <-. run_ends_here api.
        right. exists x, names_host. split; [exact Hverdict |]. right.
        split; [lia |]. right. right. split; [exact Hnext | reflexivity]. }
    pose proof (next_node_max_failovers self self1 Hnext) as Hmf.
    set (a0 := logged self (json_rpc_body name args api true 0) _ret_cnt) in *.
    destruct (IH self1 (wire ++ [a0])%list room None (_ret_cnt + 1) r self' wire''
                ltac:(lia) Hexec)
      as (front & api' & Hwire & Hapi & Hrot & Hbound & Hroom & Hfront & Hlast).
    assert (Hnone : api' = None) by (rewrite Hapi; destruct (Nat.eqb _ _); reflexivity).
    assert (Hlen : (List.length (wire ++ [a0]) = List.length wire + 1)%nat)
      by (rewrite length_app; reflexivity).
    clear Hapi. subst api'. exists (a0 :: front), None.
    replace (_ret_cnt + Z.of_nat (List.length (a0 :: front)))
      with (_ret_cnt + 1 + Z.of_nat (List.length front))
      by (simpl List.length; lia).
    cbn [List.length].
    split; [rewrite Hwire, <- app_assoc; reflexivity |].
    split; [reflexivity |].
    split; [rewrite (rotate_S _ self self1 Hnext); exact Hrot |].
    split; [right; destruct Hbound as [H0 | Hb]; [rewrite H0; simpl; lia | lia] |].
    split; [lia |].
    split.
    + intros [| i] a Hnth.
      * injection Hnth as <-. exists self, x, names_host.
        rewrite Nat.add_0_r, Z.add_0_r. repeat split. exact Hverdict.
      * destruct (Hfront i a Hnth) as (s & x' & h' & Hs & Ha & Hv).
        exists s, x', h'.
        split; [rewrite (rotate_S _ self self1 Hnext); exact Hs |].
        split.
        -- rewrite Ha. f_equal; [destruct i; reflexivity | lia].
        -- replace (List.length wire + S i)%nat
             with (List.length (wire ++ [a0]) + i)%nat by lia.
           exact Hv.
    + replace (List.length wire + S (List.length front))%nat
        with (List.length (wire ++ [a0]) + List.length front)%nat by lia.
      rewrite <- Hmf.
      destruct Hlast as [Hfinal | (x' & h' & Hretry & Hend)];
        [left; exact Hfinal |].
      right. exists x', h'. split; [exact Hretry |].
      destruct Hend as [Hspent | (Hlt & [Hvalue | [[Hdeep Hr] | Hstop]])].
      * left. exact Hspent.
      * right. split; [exact Hlt |]. left. exact Hvalue.
      * right. split; [exact Hlt |]. right. left.
        split; [congruence | exact Hr].
      * right. split; [exact Hlt |]. right. right. exact Hstop.
Qed.

Lemma exec_run_from
    (urlopen : nat -> string -> request_body -> Exception + HTTPResponse)
    (urlparse : string -> parse_outcome)
    (self : HttpClient) (wire : list attempt) (stack : nat) (name : string)
    (args : list pyval) (api : option string)
    (return_with_args : option bool) (_ret_cnt : Z)
    (r : res pyval) (self' : HttpClient) (wire'' : list attempt) :
  exec urlopen urlparse self wire stack name args api return_with_args _ret_cnt
    = (r, self', wire'') ->
  exists front last,
    wire'' = (wire ++ front ++ [last])%list /\
    rotate (List.length front) self = Ok self' /\
    sent_to last = url self' /\
    sent_ret_cnt last = _ret_cnt + Z.of_nat (List.length front) /\
    sent_body last
      = json_rpc_body name args
          (if Nat.eqb (List.length front) 0 then api else None) true 0 /\
    (List.length front = 0%nat \/
     _ret_cnt + Z.of_nat (List.length front) <= max_failovers self) /\
    (List.length front <= stack)%nat /\
    (forall i a, nth_error front i = Some a ->
       exists s x names_host,
         rotate i self = Ok s /\
         a = logged s
               (json_rpc_body name args (if Nat.eqb i 0 then api else None) true 0)
               (_ret_cnt + Z.of_nat i) /\
         attempt_verdict
           (urlopen (List.length wire + i)%nat (url s) (sent_body a))
           args return_with_args = Retryable x names_host) /\
    (attempt_verdict
       (urlopen (List.length wire + List.length front)%nat
                (sent_to last) (sent_body last))
       args return_with_args = Final r \/
     exists x names_host,
       attempt_verdict
         (urlopen (List.length wire + List.length front)%nat
                  (sent_to last) (sent_body last))
         args return_with_args = Retryable x names_host /\
       ((sent_ret_cnt last >= max_failovers self /\ r = Err x) \/
        (sent_ret_cnt last < max_failovers self /\
         ((names_host = true /\ urlparse (url self') = Rejected /\
           r = Err ValueError) \/
          (stack = List.length front /\ r = Err RecursionError) \/
          (next_node self' = Err StopIteration /\ r = Err StopIteration))))).
Proof.
  intros Hexec.
  destruct (exec_run urlopen urlparse name args return_with_args _ self wire
              stack api _ret_cnt r self' wire'' eq_refl Hexec)
    as (front & api' & Hwire & Hapi & Hrot & Hbound & Hroom & Hfront & Hlast).
  subst api'.
  eexists front, _. split; [exact Hwire |].
  cbn [sent_to sent_body sent_ret_cnt logged].
  repeat (split; [first [reflexivity | assumption] |]).
  exact Hlast.
Qed.

Lemma next_node_keeps (self self' : HttpClient) :
  next_node self = Ok self' ->
  return_with_args self' = return_with_args self /\
  max_workers self' = max_workers self /\
  max_failovers self' = max_failovers self /\
  saved (nodes self') = saved (nodes self).
Proof.
  unfold next_node, next.
  destruct (nth_error (saved (nodes self)) (cursor (nodes self))); [| discriminate].
  intros [= <-]. repeat split.
Qed.

Lemma rotate_keeps (n : nat) (self self' : HttpClient) :
  rotate n self = Ok self' ->
  return_with_args self' = return_with_args self /\
  max_workers self' = max_workers self /\
  max_failovers self' = max_failovers self /\
  saved (nodes self') = saved (nodes self).
Proof.
  revert self. induction n as [| n IH]; intros self; simpl.
  - intros [= <-]. repeat split.
  - destruct (next_node self) as [self1 |] eqn:Hnext; simpl; [| discriminate].
    intros Hrot. destruct (IH self1 Hrot) as (H1 & H2 & H3 & H4).
    destruct (next_node_keeps self self1 Hnext) as (K1 & K2 & K3 & K4).
    repeat split; congruence.
Qed.

(** X6: a call of [exec] leaves the configuration of the client and its
    list of endpoints as they were, whatever the transport answers and
    however the call ends; it moves the cursor and the active URL
    only. *)
Theorem exec_keeps_configuration
    (urlopen : nat -> string -> request_body -> Exception + HTTPResponse)
    (urlparse : string -> parse_outcome)
    (self : HttpClient) (wire : list attempt) (stack : nat) (name : string)
    (args : list pyval) (api : option string)
    (return_with_args0 : option bool) (_ret_cnt : Z)
    (r : res pyval) (self' : HttpClient) (wire' : list attempt) :
  exec urlopen urlparse self wire stack name args api return_with_args0 _ret_cnt
    = (r, self', wire') ->
  return_with_args self' = return_with_args self /\
  max_workers self' = max_workers self /\
  max_failovers self' = max_failovers self /\
  saved (nodes self') = saved (nodes self).
Proof.
  intros Hexec.
  destruct (exec_run_from _ _ _ _ _ _ _ _ _ _ _ _ _ Hexec)
    as (front & last & _ & Hrot & _).
  eapply rotate_keeps. exact Hrot.
Qed.

Lemma rotate_active_url (endpoints : list string) (i : nat)
    (self s : HttpClient) :
  rotation_ok endpoints self ->
  rotate i self = Ok s ->
  nth_error endpoints
    (Nat.modulo (active_index self + i) (List.length endpoints))
    = Some (url s).
Proof.
  intros Hok Hrot.
  destruct (rotate_rotation_ok endpoints i self Hok)
    as (s' & Hrot' & Hok' & _ & _ & _ & _ & Hact).
  rewrite Hrot in Hrot'. injection Hrot' as <-.
  rewrite <- Hact. destruct Hok' as (_ & _ & Hurl). exact Hurl.
Qed.


(** X8: the first request of a call carries the envelope built with the
    caller's namespace and every later request of the call carries the
    envelope built without one; all of them are serialized, with id 0.
    So a call made without a namespace repeats one and the same body. *)
Theorem exec_request_bodies
    (urlopen : nat -> string -> request_body -> Exception + HTTPResponse)
    (urlparse : string -> parse_outcome)
    (self : HttpClient) (wire : list attempt) (stack : nat) (name : string)
    (args : list pyval) (api : option string)
    (return_with_args : option bool) (_ret_cnt : Z)
    (r : res pyval) (self' : HttpClient) (wire' : list attempt) :
  exec urlopen urlparse self wire stack name args api return_with_args _ret_cnt
    = (r, self', wire') ->
  exists first retries,
    wire' = (wire ++ first :: retries)%list /\
    sent_body first = json_rpc_body name args api true 0 /\
    Forall (fun a => sent_body a = json_rpc_body name args None true 0) retries /\
    (api = None ->
     Forall (fun a => sent_body a = sent_body first) retries).
Proof.
  intros Hexec.
  destruct (exec_run_from _ _ _ _ _ _ _ _ _ _ _ _ _ Hexec)
    as (front & last & Hwire & _ & _ & _ & Hbody & _ & _ & Hfront & _).
  assert (Hshape : exists first retries,
            (front ++ [last])%list = first :: retries /\
            sent_body first = json_rpc_body name args api true 0 /\
            Forall (fun a => sent_body a = json_rpc_body name args None true 0)
                   retries).
  { destruct front as [| a0 front1].
    - exists last, []. repeat split; [exact Hbody | constructor].
    - exists a0, (front1 ++ [last])%list. split; [reflexivity |]. split.
      + destruct (Hfront 0%nat a0 eq_refl) as (s & x & h & _ & -> & _). reflexivity.
      + apply Forall_app. split.
        * apply Forall_forall. intros a Hin.
          apply In_nth_error in Hin. destruct Hin as [i Hi].
          destruct (Hfront (S i) a Hi) as (s & x & h & _ & -> & _). reflexivity.
        * constructor; [exact Hbody | constructor]. }
  destruct Hshape as (first & retries & Hsent & Hfirst & Hretries).
  exists first, retries. rewrite Hwire, Hsent.
  repeat split; try assumption.
  intros ->. rewrite Hfirst. exact Hretries.
Qed.

Lemma retryable_is_retried (answer : Exception + HTTPResponse)
    (args : list pyval) (return_with_args : option bool) (x : raised)
    (names_host : bool) :
  attempt_verdict answer args return_with_args = Retryable x names_host ->
  retried_answer answer.
Proof.
  unfold attempt_verdict. destruct answer as [e | response].
  - intros _. constructor.
  - destruct (is_not_200 (status response)) eqn:Hstatus.
    { intros _. apply retried_status. unfold is_not_200 in Hstatus.
      apply negb_true_iff, Z.eqb_neq in Hstatus. exact Hstatus. }
    destruct (data response) as [response_json |] eqn:Hdata.
    2:{ intros _. apply retried_undecodable. exact Hdata. }
    destruct (contains "error" response_json) as [[|] |] eqn:Herror.
    + intros _. eapply retried_error; eassumption.
    + destruct (contains "result" response_json) as [[|] |]; try discriminate.
      destruct (getitem response_json "result"); discriminate.
    + discriminate.
Qed.

(** X9: [exec] goes to another node only after a failure it may retry:
    every request of a call but the last was answered by an exception,
    by a status other than 200, by a body that does not decode, or by a
    decoded body with an error entry. *)
Theorem exec_retries_only_failures
    (urlopen : nat -> string -> request_body -> Exception + HTTPResponse)
    (urlparse : string -> parse_outcome)
    (self : HttpClient) (wire : list attempt) (stack : nat) (name : string)
    (args : list pyval) (api : option string)
    (return_with_args : option bool) (_ret_cnt : Z)
    (r : res pyval) (self' : HttpClient) (wire' : list attempt) :
  exec urlopen urlparse self wire stack name args api return_with_args _ret_cnt
    = (r, self', wire') ->
  exists front last,
    wire' = (wire ++ front ++ [last])%list /\
    forall i a, nth_error front i = Some a ->
      retried_answer
        (urlopen (List.length wire + i)%nat (sent_to a) (sent_body a)).
Proof.
  intros Hexec.
  destruct (exec_run_from _ _ _ _ _ _ _ _ _ _ _ _ _ Hexec)
    as (front & last & Hwire & _ & _ & _ & _ & _ & _ & Hfront & _).
  exists front, last. split; [exact Hwire |].
  intros i a Hnth. destruct (Hfront i a Hnth) as (s & x & h & _ & Ha & Hv).
  eapply retryable_is_retried.
  replace (sent_to a) with (url s) by (rewrite Ha; reflexivity).
  exact Hv.
Qed.

Lemma final_ok_inv (answer : Exception + HTTPResponse)
    (args : list pyval) (return_with_args : option bool) (v : pyval) :
  attempt_verdict answer args return_with_args = Final (Ok v) ->
  exists response response_json result,
    answer = inr response /\
    status response = 200 /\
    data response = Some response_json /\
    contains "error" response_json = Ok false /\
    getitem response_json "result" = Ok result /\
    v = (if truthy return_with_args
         then PyTuple [result; PyTuple args] else result).
Proof.
  unfold attempt_verdict. destruct answer as [e | response]; [discriminate |].
  destruct (is_not_200 (status response)) eqn:Hstatus; [discriminate |].
  destruct (data response) as [response_json |] eqn:Hdata; [| discriminate].
  destruct (contains "error" response_json) as [[|] |] eqn:Herror.
  - destruct (bind _ _); discriminate.
  - destruct (contains "result" response_json) as [[|] |]; try discriminate.
    destruct (getitem response_json "result") as [result |] eqn:Hresult;
      [| discriminate].
    intros [= <-]. exists response, response_json, result.
    repeat split; try assumption.
    unfold is_not_200 in Hstatus.
    apply negb_false_iff, Z.eqb_eq in Hstatus. exact Hstatus.
  - discriminate.
Qed.

(** X10: a value is only ever returned from a good answer: when a call
    returns, its last request was answered with status 200 and a body
    that decodes, holds no error entry and holds a result; the value is
    that result, paired with the caller's arguments when
    [return_with_args] was passed as true, however many retries went
    before. *)
Theorem exec_returns_the_result
    (urlopen : nat -> string -> request_body -> Exception + HTTPResponse)
    (urlparse : string -> parse_outcome)
    (self : HttpClient) (wire : list attempt) (stack : nat) (name : string)
    (args : list pyval) (api : option string)
    (return_with_args : option bool) (_ret_cnt : Z)
    (v : pyval) (self' : HttpClient) (front : list attempt) (last : attempt) :
  exec urlopen urlparse self wire stack name args api return_with_args _ret_cnt
    = (Ok v, self', (front ++ [last])%list) ->
  exists response response_json result,
    urlopen (List.length front) (sent_to last) (sent_body last) = inr response /\
    status response = 200 /\
    data response = Some response_json /\
    contains "error" response_json = Ok false /\
    getitem response_json "result" = Ok result /\
    v = (if truthy return_with_args
         then PyTuple [result; PyTuple args] else result).
Proof.
  intros Hexec.
  destruct (exec_run_from _ _ _ _ _ _ _ _ _ _ _ _ _ Hexec)
    as (front0 & last0 & Hwire & _ & _ & _ & _ & _ & _ & _ & Hlast).
  rewrite app_assoc in Hwire. apply app_inj_tail in Hwire.
  destruct Hwire as [-> ->]. rewrite length_app.
  destruct Hlast
    as [Hfinal | (x & h & _ & [[_ Hr] | (_ & [(_ & _ & Hr) | [[_ Hr] | [_ Hr]]])])];
    try discriminate.
  exact (final_ok_inv _ _ _ _ Hfinal).
Qed.

Lemma final_err_inv (answer : Exception + HTTPResponse)
    (args : list pyval) (return_with_args : option bool) (x : raised) :
  attempt_verdict answer args return_with_args = Final (Err x) ->
  raised_on_spent_budget x = false.
Proof.
  unfold attempt_verdict. destruct answer as [e | response]; [discriminate |].
  destruct (is_not_200 (status response)); [discriminate |].
  destruct (data response) as [response_json |]; [| discriminate].
  destruct response_json as [ | b | z | f | s | items | items | entries];
    simpl; try (intros [= <-]; reflexivity).
  - destruct (is_substring "error" s); simpl; [intros [= <-]; reflexivity |].
    destruct (is_substring "result" s); simpl; intros [= <-]; reflexivity.
  - destruct (existsb (is_str "error") items); simpl; [intros [= <-]; reflexivity |].
    destruct (existsb (is_str "result") items); simpl; intros [= <-]; reflexivity.
  - destruct (existsb (is_str "error") items); simpl; [intros [= <-]; reflexivity |].
    destruct (existsb (is_str "result") items); simpl; intros [= <-]; reflexivity.
  - destruct (lookup "error" entries) as [error |]; simpl.
    + destruct error; simpl; try (intros [= <-]; reflexivity).
      destruct (lookup "message" entries0); simpl;
        [discriminate | intros [= <-]; reflexivity].
    + destruct (lookup "result" entries); simpl; [discriminate |].
      intros [= <-]. reflexivity.
Qed.

(** X11: [exec] does not give up early: a call that starts with the
    counter at 0 on a budget K >= 0 and raises the transport's error, a
    [SteemdBadResponse] carrying a response, or an [RPCError], has sent
    exactly K + 1 requests. *)
Theorem exec_gives_up_on_spent_budget
    (urlopen : nat -> string -> request_body -> Exception + HTTPResponse)
    (urlparse : string -> parse_outcome)
    (self : HttpClient) (wire : list attempt) (stack : nat) (name : string)
    (args : list pyval) (api : option string)
    (return_with_args : option bool)
    (x : raised) (self' : HttpClient) (wire' : list attempt) :
  0 <= max_failovers self ->
  raised_on_spent_budget x = true ->
  exec urlopen urlparse self wire stack name args api return_with_args 0
    = (Err x, self', wire') ->
  exists sent,
    wire' = (wire ++ sent)%list /\
    List.length sent = (Z.to_nat (max_failovers self) + 1)%nat.
Proof.
  intros HK Hx Hexec.
  destruct (exec_run_from _ _ _ _ _ _ _ _ _ _ _ _ _ Hexec)
    as (front & last & Hwire & _ & _ & Hcnt & _ & Hbound & _ & _ & Hlast).
  exists (front ++ [last])%list. split; [exact Hwire |].
  rewrite length_app. simpl.
  destruct Hlast
    as [Hfinal | (x0 & h & _ & [[Hge _] | (_ & [(_ & _ & Hr) | [[_ Hr] | [_ Hr]]])])].
  - apply final_err_inv in Hfinal. congruence.
  - rewrite Hcnt in Hge. destruct Hbound as [H0 | Hle]; [rewrite H0 in *|]; lia.
  - injection Hr as ->. discriminate.
  - injection Hr as ->. discriminate.
  - injection Hr as ->. discriminate.
Qed.

(** ** One attempt, further cases *)

Section OneAttemptMore.

Variable urlopen : nat -> string -> request_body -> Exception + HTTPResponse.
Variable urlparse : string -> parse_outcome.
Variables (self : HttpClient) (wire : list attempt) (stack : nat).
Variables (name : string) (args : list pyval) (api : option string).
Variables (return_with_args : option bool) (_ret_cnt : Z).

Local Abbreviation body := (json_rpc_body name args api true 0).
Local Abbreviation wire' := (wire ++ [logged self body _ret_cnt])%list.
Local Abbreviation call :=
  (exec urlopen urlparse self wire stack name args api return_with_args _ret_cnt).
Local Abbreviation answer := (urlopen (List.length wire) (url self) body).

(** X15: an error entry wins over a result entry, and its text is the
    detail when there is one, the message otherwise: with the budget
    spent the call raises [RPCError] with that text; while budget
    remains it goes to the next node instead, without a look at the
    host name, or raises [RecursionError] when the interpreter has no
    room left for the nested call. *)
Theorem rpc_error_message (response : HTTPResponse)
    (entries fields : list (string * pyval)) (message : pyval) :
  answer = inr response ->
  status response = 200 ->
  data response = Some (PyDict entries) ->
  lookup "error" entries = Some (PyDict fields) ->
  lookup "message" fields = Some message ->
  (_ret_cnt >= max_failovers self ->
     call = (Err (RPCError (match lookup "detail" fields with
                            | Some detail => detail
                            | None => message
                            end)), self, wire')) /\
  (_ret_cnt < max_failovers self ->
     forall self' room, stack = S room -> next_node self = Ok self' ->
     call = exec urlopen urlparse self' wire' room name args None return_with_args
                 (_ret_cnt + 1)) /\
  (_ret_cnt < max_failovers self -> stack = 0%nat ->
     exists self', call = (Err RecursionError, self', wire')).
Proof.
  intros Hanswer Hstatus Hdata Herror Hmessage.
  rewrite exec_by_verdict. cbv zeta. rewrite Hanswer.
  unfold attempt_verdict, is_not_200. rewrite Hstatus, Hdata. simpl.
  rewrite Herror. simpl. rewrite Hmessage. simpl.
  split; [| split].
  - intros Hspent.
    destruct (Z_ge_dec _ret_cnt (max_failovers self)); [reflexivity | contradiction].
  - intros Hleft self' room Hroom Hnext.
    destruct (Z_ge_dec _ret_cnt (max_failovers self)); [lia |].
    rewrite Hroom, Hnext. reflexivity.
  - intros Hleft Hroom. exists self.
    destruct (Z_ge_dec _ret_cnt (max_failovers self)); [lia |].
    rewrite Hroom. reflexivity.
Qed.

(** X16: the message is looked up before the detail is preferred: an
    error entry that has a detail but no message makes the call raise
    [KeyError] at once, with nothing retried, whatever the budget. *)
Theorem error_detail_without_message (response : HTTPResponse)
    (entries fields : list (string * pyval)) (detail : pyval) :
  answer = inr response ->
  status response = 200 ->
  data response = Some (PyDict entries) ->
  lookup "error" entries = Some (PyDict fields) ->
  lookup "detail" fields = Some detail ->
  lookup "message" fields = None ->
  call = (Err (KeyError "message"), self, wire').
Proof.
  intros Hanswer Hstatus Hdata Herror _ Hmessage.
  rewrite exec_by_verdict. cbv zeta. rewrite Hanswer.
  unfold attempt_verdict, is_not_200. rewrite Hstatus, Hdata. simpl.
  rewrite Herror. simpl. rewrite Hmessage. reflexivity.
Qed.

(** X17: a body that does not decode is handled like a bad status, but
    for the log line: with the budget spent the call raises
    [SteemdBadResponse] carrying the response; while budget remains it
    goes to the next node, without a look at the host name, or raises
    [RecursionError] when the interpreter has no room left for the
    nested call. *)
Theorem undecodable_body (response : HTTPResponse) :
  answer = inr response ->
  status response = 200 ->
  data response = None ->
  (_ret_cnt >= max_failovers self ->
     call = (Err (SteemdBadResponse (BadResponse response)), self, wire')) /\
  (_ret_cnt < max_failovers self ->
     forall self' room, stack = S room -> next_node self = Ok self' ->
     call = exec urlopen urlparse self' wire' room name args None return_with_args
                 (_ret_cnt + 1)) /\
  (_ret_cnt < max_failovers self -> stack = 0%nat ->
     exists self', call = (Err RecursionError, self', wire')).
Proof.
  intros Hanswer Hstatus Hdata.
  rewrite exec_by_verdict. cbv zeta. rewrite Hanswer.
  unfold attempt_verdict, is_not_200. rewrite Hstatus, Hdata. simpl.
  split; [| split].
  - intros Hspent.
    destruct (Z_ge_dec _ret_cnt (max_failovers self)); [reflexivity | contradiction].
  - intros Hleft self' room Hroom Hnext.
    destruct (Z_ge_dec _ret_cnt (max_failovers self)); [lia |].
    rewrite Hroom, Hnext. reflexivity.
  - intros Hleft Hroom. exists self.
    destruct (Z_ge_dec _ret_cnt (max_failovers self)); [lia |].
    rewrite Hroom. reflexivity.
Qed.

(** X18: a decoded body that is not a JSON object never yields a value:
    the call raises at once, [TypeError] or the [SteemdBadResponse] that
    names the missing result, with nothing retried and the client left
    on its node, whatever the budget. *)
Theorem non_object_body_raises (response : HTTPResponse) (response_json : pyval) :
  answer = inr response ->
  status response = 200 ->
  data response = Some response_json ->
  (forall entries, response_json <> PyDict entries) ->
  exists x,
    call = (Err x, self, wire') /\
    (x = TypeError \/ x = SteemdBadResponse (BadMessage missing_result)).
Proof.
  intros Hanswer Hstatus Hdata Hnot.
  rewrite exec_by_verdict. cbv zeta. rewrite Hanswer.
  unfold attempt_verdict, is_not_200. rewrite Hstatus, Hdata. simpl.
  destruct response_json as [ | b | z | f | s | items | items | entries]; simpl;
    eauto.
  - destruct (is_substring "error" s); simpl; eauto.
    destruct (is_substring "result" s); simpl; eauto.
  - destruct (existsb (is_str "error") items); simpl; eauto.
    destruct (existsb (is_str "result") items); simpl; eauto.
  - destruct (existsb (is_str "error") items); simpl; eauto.
    destruct (existsb (is_str "result") items); simpl; eauto.
  - exfalso. eapply Hnot. reflexivity.
Qed.

(** X19: once the counter has reached the budget (so at once, when
    [max_failovers] is 0 or negative) a call sends a single request and
    leaves the client on its node, whatever the answer. *)
Theorem spent_budget_single_request :
  _ret_cnt >= max_failovers self ->
  exists r,
    exec urlopen urlparse self wire stack name args api return_with_args _ret_cnt
    = (r, self,
       (wire ++ [logged self (json_rpc_body name args api true 0) _ret_cnt])%list).
Proof.
  intros Hspent. rewrite exec_by_verdict. cbv zeta.
  destruct (attempt_verdict answer args return_with_args); eauto.
  destruct (Z_ge_dec _ret_cnt (max_failovers self)); [eauto | contradiction].
Qed.

End OneAttemptMore.

(** ** Fail-over that ends well *)

Lemma verdict_of_result (response : HTTPResponse)
    (entries : list (string * pyval)) (result : pyval)
    (args : list pyval) (return_with_args : option bool) :
  status response = 200 ->
  data response = Some (PyDict entries) ->
  lookup "error" entries = None ->
  lookup "result" entries = Some result ->
  attempt_verdict (inr response) args return_with_args
    = Final (Ok (if truthy return_with_args
                 then PyTuple [result; PyTuple args] else result)).
Proof.
  intros Hstatus Hdata Herror Hresult.
  unfold attempt_verdict, is_not_200. rewrite Hstatus, Hdata. simpl.
  rewrite Herror, Hresult. reflexivity.
Qed.

Lemma verdict_of_outage (answer : Exception + HTTPResponse)
    (args : list pyval) (return_with_args : option bool) :
  (exists e, answer = inl e) \/
  (exists down, answer = inr down /\
                (status down <> 200 \/ data down = None)) ->
  exists x names_host,
    attempt_verdict answer args return_with_args = Retryable x names_host.
Proof.
  intros [[e ->] | (down & -> & Hdown)]; simpl; [eauto |].
  unfold is_not_200.
  destruct (Z.eqb_spec (status down) 200) as [Heq | Hne]; simpl; [| eauto].
  destruct Hdown as [Hne | Hdata]; [contradiction |].
  rewrite Hdata. eauto.
Qed.

Lemma exec_fails_over
    (urlopen : nat -> string -> request_body -> Exception + HTTPResponse)
    (urlparse : string -> parse_outcome)
    (endpoints : list string) (name : string) (args : list pyval)
    (return_with_args : option bool) (response : HTTPResponse)
    (entries : list (string * pyval)) (result : pyval) :
  status response = 200 ->
  data response = Some (PyDict entries) ->
  lookup "error" entries = None ->
  lookup "result" entries = Some result ->
  forall (j : nat) (self : HttpClient) (wire : list attempt) (stack : nat)
         (api : option string) (_ret_cnt : Z),
    rotation_ok endpoints self ->
    _ret_cnt + Z.of_nat j <= max_failovers self ->
    (j <= stack)%nat ->
    (forall i node_url, (i < j)%nat ->
       nth_error endpoints
         (Nat.modulo (active_index self + i) (List.length endpoints))
         = Some node_url ->
       urlparse node_url <> Rejected) ->
    (forall i node_url body, (i < j)%nat ->
       nth_error endpoints
         (Nat.modulo (active_index self + i) (List.length endpoints))
         = Some node_url ->
       (exists e, urlopen (List.length wire + i)%nat node_url body = inl e) \/
       (exists down,
          urlopen (List.length wire + i)%nat node_url body = inr down /\
          (status down <> 200 \/ data down = None))) ->
    (forall node_url body,
       nth_error endpoints
         (Nat.modulo (active_index self + j) (List.length endpoints))
         = Some node_url ->
       urlopen (List.length wire + j)%nat node_url body = inr response) ->
    exists self' sent,
      exec urlopen urlparse self wire stack name args api return_with_args _ret_cnt
        = (Ok (if truthy return_with_args
               then PyTuple [result; PyTuple args] else result),
           self', (wire ++ sent)%list) /\
      List.length sent = S j /\
      rotate j self = Ok self'.
Proof.
  intros Hstatus Hdata Herror Hresult.
  induction j as [| j IH];
    intros self wire stack api _ret_cnt Hok Hbudget Hroom Hparse Hbad Hgood.
  - pose proof (rotate_active_url endpoints 0 self self Hok eq_refl) as Hurl.
    pose proof (Hgood (url self) (json_rpc_body name args api true 0) Hurl)
      as Hanswer.
    rewrite Nat.add_0_r in Hanswer.
    rewrite exec_by_verdict. cbv zeta. rewrite Hanswer.
    rewrite (verdict_of_result response entries result args return_with_args
               Hstatus Hdata Herror Hresult).
    eexists self, [_]. repeat split.
  - pose proof (rotate_active_url endpoints 0 self self Hok eq_refl) as Hurl.
    assert (He : exists x names_host,
              attempt_verdict
                (urlopen (List.length wire) (url self)
                         (json_rpc_body name args api true 0))
                args return_with_args = Retryable x names_host).
    { pose proof (Hbad 0%nat (url self) (json_rpc_body name args api true 0)
                    ltac:(lia) Hurl) as Hdown.
      rewrite Nat.add_0_r in Hdown.
      apply verdict_of_outage. exact Hdown. }
    destruct He as (x0 & names_host & He).
    assert (Hhost : exists host,
              (if names_host then hostname urlparse self else Ok PyNone)
              = Ok host).
    { destruct names_host; [| eauto]. unfold hostname.
      pose proof (Hparse 0%nat (url self) ltac:(lia) Hurl) as Haccepted.
      destruct (urlparse (url self)); [eauto | contradiction]. }
    destruct Hhost as [host Hhost].
    destruct stack as [| room]; [lia |].
    destruct (next_node_rotation_ok endpoints self Hok)
      as (self1 & Hnext & Hok1 & _ & _ & Hmf & _ & Hact).
    assert (Hshift : forall i,
              Nat.modulo (active_index self1 + i) (List.length endpoints)
              = Nat.modulo (active_index self + S i) (List.length endpoints)).
    { intros i. rewrite Hact, Nat.Div0.add_mod_idemp_l. f_equal. lia. }
    set (a0 := logged self (json_rpc_body name args api true 0) _ret_cnt).
    assert (Hlen : forall i,
              (List.length (wire ++ [a0]) + i = List.length wire + S i)%nat)
      by (intros i; rewrite length_app; simpl; lia).
    destruct (IH self1 (wire ++ [a0])%list room None (_ret_cnt + 1) Hok1)
      as (self' & sent & Hexec & Hsent & Hrot).
    + rewrite Hmf. lia.
    + lia.
    + intros i node_url Hi Hnode. rewrite Hshift in Hnode.
      apply (Hparse (S i) node_url); [lia | exact Hnode].
    + intros i node_url body Hi Hnode. rewrite Hshift in Hnode. rewrite Hlen.
      apply (Hbad (S i) node_url body); [lia | exact Hnode].
    + intros node_url body Hnode. rewrite Hshift in Hnode. rewrite Hlen.
      apply (Hgood node_url body Hnode).
    + exists self', (a0 :: sent).
      rewrite exec_by_verdict. cbv zeta. rewrite He.
      destruct (Z_ge_dec _ret_cnt (max_failovers self)); [lia |].
      rewrite Hhost, Hnext. fold a0. rewrite Hexec, <- app_assoc.
      split; [reflexivity |]. split; [simpl; lia |].
      rewrite (rotate_S _ self self1 Hnext). exact Hrot.
Qed.

(** X13: when the endpoints a call meets first are down (the connection
    raises, the status is not 200 or the body does not decode) and the
    next one answers with a result, and the budget and the room for
    nested calls both cover the outages, and [urlparse] accepts the URLs
    of the endpoints that are down, the call returns that result after
    one request to each of them, and the client stays on the endpoint
    that answered. *)
Theorem exec_succeeds_after_failover
    (urlopen : nat -> string -> request_body -> Exception + HTTPResponse)
    (urlparse : string -> parse_outcome)
    (endpoints : list string) (self : HttpClient) (wire : list attempt)
    (stack : nat)
    (name : string) (args : list pyval) (api : option string)
    (return_with_args : option bool) (j : nat)
    (response : HTTPResponse) (entries : list (string * pyval))
    (result : pyval) :
  reachable endpoints self ->
  Z.of_nat j <= max_failovers self ->
  (j <= stack)%nat ->
  (forall i node_url, (i < j)%nat ->
     nth_error endpoints
       (Nat.modulo (active_index self + i) (List.length endpoints))
       = Some node_url ->
     urlparse node_url <> Rejected) ->
  status response = 200 ->
  data response = Some (PyDict entries) ->
  lookup "error" entries = None ->
  lookup "result" entries = Some result ->
  (forall i node_url body, (i < j)%nat ->
     nth_error endpoints
       (Nat.modulo (active_index self + i) (List.length endpoints))
       = Some node_url ->
     (exists e, urlopen (List.length wire + i)%nat node_url body = inl e) \/
     (exists down,
        urlopen (List.length wire + i)%nat node_url body = inr down /\
        (status down <> 200 \/ data down = None))) ->
  (forall node_url body,
     nth_error endpoints
       (Nat.modulo (active_index self + j) (List.length endpoints))
       = Some node_url ->
     urlopen (List.length wire + j)%nat node_url body = inr response) ->
  exists self' sent,
    exec urlopen urlparse self wire stack name args api return_with_args 0
      = (Ok (if truthy return_with_args
             then PyTuple [result; PyTuple args] else result),
         self', (wire ++ sent)%list) /\
    List.length sent = S j /\
    rotate j self = Ok self' /\
    nth_error endpoints
      (Nat.modulo (active_index self + j) (List.length endpoints))
      = Some (url self').
Proof.
  intros Hreach Hbudget Hroom Hparse Hstatus Hdata Herror Hresult Hbad Hgood.
  pose proof (reachable_rotation_ok endpoints self Hreach) as Hok.
  destruct (exec_fails_over urlopen urlparse endpoints name args return_with_args
              response entries result Hstatus Hdata Herror Hresult
              j self wire stack api 0 Hok ltac:(lia) Hroom Hparse Hbad Hgood)
    as (self' & sent & Hexec & Hlen & Hrot).
  exists self', sent. repeat split; try assumption.
  exact (rotate_active_url endpoints j self self' Hok Hrot).
Qed.

(** ** The constructor and the rotation *)

(** X1: the constructor raises [StopIteration] exactly when the list of
    nodes is empty. *)
Theorem init_raises_on_no_nodes (endpoints : list string) (kw : kwargs) :
  __init__ endpoints kw = Err StopIteration <-> endpoints = [].
Proof.
  unfold __init__, next_node, next. simpl. split.
  - destruct endpoints as [| first rest]; [reflexivity | discriminate].
  - intros ->. reflexivity.
Qed.

Lemma init_raises_on_no_nodes_witness :
  __init__ [] pairing_by_default = Err StopIteration.
Proof.
  apply (init_raises_on_no_nodes [] pairing_by_default). reflexivity.
Defined.

(** X2: on a list with at least one node the constructor succeeds: the
    first node is the active one, the list is kept in its order, and the
    options that were not passed get their defaults: a budget of 10
    fail-overs, no pairing, no worker limit. *)
Theorem init_activates_first_node (first : string) (rest : list string)
    (kw : kwargs) :
  exists self,
    __init__ (first :: rest) kw = Ok self /\
    url self = first /\
    saved (nodes self) = first :: rest /\
    max_failovers self
      = match kw_max_failovers kw with Some K => K | None => 10 end /\
    return_with_args self
      = match kw_return_with_args kw with Some b => b | None => false end /\
    max_workers self = kw_max_workers kw.
Proof.
  unfold __init__, next_node, next. simpl.
  eexists. split; [reflexivity |]. repeat split.
Qed.

Lemma init_active_index (endpoints : list string) (kw : kwargs)
    (self : HttpClient) :
  __init__ endpoints kw = Ok self -> active_index self = 0%nat.
Proof.
  unfold __init__, next_node, next. simpl.
  destruct endpoints as [| first rest]; simpl; [discriminate |].
  intros [= <-]. unfold active_index, set_node, with_nodes.
  cbn [nodes saved cursor List.length].
  set (N := S (List.length rest)).
  destruct (Nat.ltb_spec 1 N) as [Hlt | Hge].
  - replace (1 + N - 1)%nat with N by lia. apply Nat.Div0.mod_same.
  - replace (0 + N - 1)%nat with 0%nat by lia. apply Nat.Div0.mod_0_l.
Qed.

(** X3: rotation is round-robin in the order of the list: k rotations
    after construction the active endpoint is the one at position
    k modulo the length of the list, and no rotation ever fails. *)
Theorem rotation_is_round_robin (endpoints : list string) (kw : kwargs)
    (self0 : HttpClient) (k : nat) :
  __init__ endpoints kw = Ok self0 ->
  exists self,
    rotate k self0 = Ok self /\
    nth_error endpoints (Nat.modulo k (List.length endpoints))
      = Some (url self).
Proof.
  intros Hinit.
  pose proof (init_rotation_ok endpoints kw self0 Hinit) as Hok.
  destruct (rotate_rotation_ok endpoints k self0 Hok) as (self & Hrot & _).
  exists self. split; [exact Hrot |].
  pose proof (rotate_active_url endpoints k self0 self Hok Hrot) as Hurl.
  rewrite (init_active_index endpoints kw self0 Hinit) in Hurl. exact Hurl.
Qed.




(** X5: [set_node] replaces the active URL and nothing else, so it lasts
    until the next rotation, which goes where it would have gone: a call
    of [exec] sends its first request to the URL that was set, and one
    or more rotations give the same client with or without the
    [set_node] before them. *)
Theorem set_node_lasts_until_rotation (self : HttpClient) (node_url : string) :
  (forall k, rotate (S k) (set_node self node_url) = rotate (S k) self) /\
  (forall urlopen urlparse wire stack name args api return_with_args _ret_cnt
          r self' wire',
     exec urlopen urlparse (set_node self node_url) wire stack name args api
          return_with_args _ret_cnt = (r, self', wire') ->
     exists first later,
       wire' = (wire ++ first :: later)%list /\ sent_to first = node_url).
Proof.
  split.
  - intros k. simpl. unfold next_node. simpl.
    destruct (next (nodes self)) as [[u it] |]; reflexivity.
  - intros urlopen urlparse wire stack name args api rwa cnt r self' wire' Hexec.
    destruct (exec_run_from _ _ _ _ _ _ _ _ _ _ _ _ _ Hexec)
      as (front & last & Hwire & Hrot & Hto & _ & _ & _ & _ & Hfront & _).
    destruct front as [| a0 front1].
    + exists last, []. split; [exact Hwire |].
      simpl in Hrot. injection Hrot as <-. exact Hto.
    + exists a0, (front1 ++ [last])%list. split; [exact Hwire |].
      destruct (Hfront 0%nat a0 eq_refl) as (s & x & h & Hs & -> & _).
      simpl in Hs. injection Hs as <-. reflexivity.
Qed.

(** ** The request builder, further *)

(** Every envelope has the same four keys in the same order, with the
    protocol version "2.0" and the id that was passed, whether or not a
    namespace is given. *)
Lemma envelope_keys (name : string) (args : list pyval)
    (api : option string) (_id : Z) :
  map fst (body_dict name args api _id)
    = ["jsonrpc"; "id"; "method"; "params"]%string /\
  lookup "jsonrpc" (body_dict name args api _id) = Some (PyStr "2.0") /\
  lookup "id" (body_dict name args api _id) = Some (PyInt _id).
Proof.
  unfold body_dict. destruct (truthy_api api); repeat split.
Qed.

(** ** The batch *)



(** ** What [exec] raises *)

Lemma final_err_kinds (answer : Exception + HTTPResponse)
    (args : list pyval) (return_with_args : option bool) (x : raised) :
  attempt_verdict answer args return_with_args = Final (Err x) ->
  x = TypeError \/ x = AttributeError \/ x = KeyError "message" \/
  x = SteemdBadResponse (BadMessage missing_result).
Proof.
  unfold attempt_verdict. destruct answer as [e | response]; [discriminate |].
  destruct (is_not_200 (status response)); [discriminate |].
  destruct (data response) as [response_json |]; [| discriminate].
  destruct response_json as [ | b | z | f | s | items | items | entries];
    simpl; try (intros [= <-]; tauto).
  - destruct (is_substring "error" s); simpl; [intros [= <-]; tauto |].
    destruct (is_substring "result" s); simpl; intros [= <-]; tauto.
  - destruct (existsb (is_str "error") items); simpl; [intros [= <-]; tauto |].
    destruct (existsb (is_str "result") items); simpl; intros [= <-]; tauto.
  - destruct (existsb (is_str "error") items); simpl; [intros [= <-]; tauto |].
    destruct (existsb (is_str "result") items); simpl; intros [= <-]; tauto.
  - destruct (lookup "error" entries) as [error |]; simpl.
    + destruct error as [ | | | | | | | fields]; simpl;
        try (intros [= <-]; tauto).
      destruct (lookup "message" fields); simpl;
        [discriminate | intros [= <-]; tauto].
    + destruct (lookup "result" entries); simpl; [discriminate |].
      intros [= <-]. tauto.
Qed.

Lemma retryable_kinds (answer : Exception + HTTPResponse)
    (args : list pyval) (return_with_args : option bool) (x : raised)
    (names_host : bool) :
  attempt_verdict answer args return_with_args = Retryable x names_host ->
  raised_on_spent_budget x = true.
Proof.
  unfold attempt_verdict. destruct answer as [e | response];
    [intros [= <-]; reflexivity |].
  destruct (is_not_200 (status response)); [intros [= <-]; reflexivity |].
  destruct (data response) as [response_json |]; [| intros [= <-]; reflexivity].
  destruct (contains "error" response_json) as [[|] |]; try discriminate.
  - destruct (bind _ _); [intros [= <-]; reflexivity | discriminate].
  - destruct (contains "result" response_json) as [[|] |]; try discriminate.
    destruct (getitem response_json "result"); discriminate.
Qed.

Lemma rotation_ok_after (endpoints : list string) (n : nat)
    (self self' : HttpClient) :
  rotation_ok endpoints self -> rotate n self = Ok self' ->
  exists self'', next_node self' = Ok self''.
Proof.
  intros Hok Hrot.
  destruct (rotate_rotation_ok endpoints n self Hok) as (s & Hs & Hoks & _).
  rewrite Hrot in Hs. injection Hs as <-.
  destruct (next_node_rotation_ok endpoints self' Hoks) as (s' & Hnext & _).
  eauto.
Qed.

(** X12: on a client built by the constructor, a call raises nothing but
    the three errors of a spent budget (the transport's own exception,
    [SteemdBadResponse] with the response, [RPCError]); the two of a
    fail-over that cannot be made: [ValueError], only when [urlparse]
    rejects the URL of the node the call ends on, and [RecursionError],
    only when the call has nested as deep as the interpreter lets it;
    and the four raised whatever the budget: [TypeError],
    [AttributeError], [KeyError] for the message, and the
    [SteemdBadResponse] that names the missing result.  In particular
    it never runs out of nodes. *)
Theorem exec_error_kinds
    (urlopen : nat -> string -> request_body -> Exception + HTTPResponse)
    (urlparse : string -> parse_outcome)
    (endpoints : list string)
    (self : HttpClient) (wire : list attempt) (stack : nat) (name : string)
    (args : list pyval) (api : option string)
    (return_with_args : option bool) (_ret_cnt : Z)
    (x : raised) (self' : HttpClient) (wire' : list attempt) :
  reachable endpoints self ->
  exec urlopen urlparse self wire stack name args api return_with_args _ret_cnt
    = (Err x, self', wire') ->
  raised_on_spent_budget x = true \/
  (x = ValueError /\ urlparse (url self') = Rejected) \/
  (x = RecursionError /\
   List.length wire' = (List.length wire + stack + 1)%nat) \/
  x = TypeError \/ x = AttributeError \/ x = KeyError "message" \/
  x = SteemdBadResponse (BadMessage missing_result).
Proof.
  intros Hreach Hexec.
  pose proof (reachable_rotation_ok endpoints self Hreach) as Hok.
  destruct (exec_run_from _ _ _ _ _ _ _ _ _ _ _ _ _ Hexec)
    as (front & last & Hwire & Hrot & _ & _ & _ & _ & _ & _ & Hlast).
  destruct Hlast
    as [Hfinal | (x0 & h & Hretry &
                  [[_ Hr] | (_ & [(_ & Hrejected & Hr) | [[Hdeep Hr] | [Hstop _]]])])].
  - right. right. right. exact (final_err_kinds _ _ _ _ Hfinal).
  - injection Hr as ->. left. exact (retryable_kinds _ _ _ _ _ Hretry).
  - injection Hr as ->. right. left. split; [reflexivity | exact Hrejected].
  - injection Hr as ->. right. right. left. split; [reflexivity |].
    rewrite Hwire, !length_app, Hdeep. simpl. lia.
  - destruct (rotation_ok_after endpoints _ self self' Hok Hrot) as [s Hs].
    congruence.
Qed.

(** X14: when every request is answered with a status other than 200,
    [urlparse] accepts the URL of every endpoint and the interpreter has
    room for K nested calls, a call on a budget K >= 0 sends exactly
    K + 1 requests, rotating after each but the last, and raises
    [SteemdBadResponse] carrying the response to the last of them. *)
Theorem exec_all_bad_status
    (urlopen : nat -> string -> request_body -> Exception + HTTPResponse)
    (urlparse : string -> parse_outcome)
    (endpoints : list string)
    (self : HttpClient) (wire : list attempt) (stack : nat) (name : string)
    (args : list pyval) (api : option string)
    (return_with_args : option bool) :
  reachable endpoints self ->
  0 <= max_failovers self ->
  (Z.to_nat (max_failovers self) <= stack)%nat ->
  (forall node_url, In node_url endpoints -> urlparse node_url <> Rejected) ->
  (forall n node_url body,
     exists down, urlopen n node_url body = inr down /\ status down <> 200) ->
  exists down self' front last,
    exec urlopen urlparse self wire stack name args api return_with_args 0
      = (Err (SteemdBadResponse (BadResponse down)), self',
         (wire ++ front ++ [last])%list) /\
    List.length front = Z.to_nat (max_failovers self) /\
    urlopen (List.length wire + List.length front)%nat
            (sent_to last) (sent_body last) = inr down /\
    rotate (Z.to_nat (max_failovers self)) self = Ok self'.
Proof.
  intros Hreach HK Hroom Hparse Hdown.
  pose proof (reachable_rotation_ok endpoints self Hreach) as Hok.
  destruct (exec urlopen urlparse self wire stack name args api return_with_args 0)
    as [[r self'] wire'] eqn:Hexec.
  destruct (exec_run_from _ _ _ _ _ _ _ _ _ _ _ _ _ Hexec)
    as (front & last & Hwire & Hrot & _ & Hcnt & _ & Hbound & _ & _ & Hlast).
  destruct (Hdown (List.length wire + List.length front)%nat
              (sent_to last) (sent_body last)) as (down & Hanswer & Hstatus).
  assert (Hverdict :
    attempt_verdict
      (urlopen (List.length wire + List.length front)%nat
               (sent_to last) (sent_body last)) args return_with_args
    = Retryable (SteemdBadResponse (BadResponse down)) true).
  { rewrite Hanswer. unfold attempt_verdict, is_not_200.
    destruct (Z.eqb_spec (status down) 200); [contradiction | reflexivity]. }
  rewrite Hverdict in Hlast.
  destruct Hlast
    as [Hfinal | (x0 & h & Hretry &
                  [[Hge Hr] | (Hlt & [(_ & Hrejected & _) | [[Hdeep _] | [Hstop _]]])])].
  - discriminate.
  - injection Hretry as <- _. subst r.
    assert (Hlen : List.length front = Z.to_nat (max_failovers self)).
    { rewrite Hcnt in Hge. destruct Hbound as [H0 | Hle]; [rewrite H0 in *|]; lia. }
    exists down, self', front, last. rewrite Hwire.
    repeat split; try assumption. rewrite <- Hlen. exact Hrot.
  - exfalso. apply (Hparse (url self')); [| exact Hrejected].
    destruct (rotate_rotation_ok endpoints (List.length front) self Hok)
      as (s & Hs & Hoks & _).
    rewrite Hrot in Hs. injection Hs as <-.
    exact (rotation_ok_url_in endpoints self' Hoks).
  - rewrite Hcnt in Hlt. lia.
  - destruct (rotation_ok_after endpoints _ self self' Hok Hrot) as [s Hs].
    congruence.
Qed.

(** ** The further properties at concrete calls *)

Lemma client_of_three_ok (K : Z) : rotation_ok three_nodes (client_of_three K).
Proof. apply reachable_rotation_ok, client_of_three_reachable. Qed.

Lemma exec_keeps_configuration_witness :
  return_with_args (snd (fst refused_call)) = false /\
  max_workers (snd (fst refused_call)) = None /\
  max_failovers (snd (fst refused_call)) = 2 /\
  saved (nodes (snd (fst refused_call))) = three_nodes.
Proof.
  apply (exec_keeps_configuration unreachable_network plain_urlparse
            (client_of_three 2) [] room
           "get_followers" [PyStr "furion"] (Some "follow_api"%string) None 0
           (fst (fst refused_call)) (snd (fst refused_call)) (snd refused_call)).
  vm_compute. reflexivity.
Defined.


Lemma exec_request_bodies_witness :
  exists first retries,
    snd refused_call = ([] ++ first :: retries)%list /\
    sent_body first
      = json_rpc_body "get_followers" [PyStr "furion"]
          (Some "follow_api"%string) true 0 /\
    Forall (fun a => sent_body a
                     = json_rpc_body "get_followers" [PyStr "furion"] None true 0)
           retries.
Proof.
  destruct (exec_request_bodies unreachable_network plain_urlparse
            (client_of_three 2) [] room
              "get_followers" [PyStr "furion"] (Some "follow_api"%string) None 0
              (fst (fst refused_call)) (snd (fst refused_call)) (snd refused_call))
    as (first & retries & Hwire & Hfirst & Hretries & _).
  - vm_compute. reflexivity.
  - exists first, retries. repeat split; assumption.
Defined.

Lemma exec_retries_only_failures_witness :
  exists front last,
    snd flaky_call = ([] ++ front ++ [last])%list /\
    forall i a, nth_error front i = Some a ->
      retried_answer
        (flaky_network (List.length (@nil attempt) + i)%nat
                       (sent_to a) (sent_body a)).
Proof.
  apply (exec_retries_only_failures flaky_network plain_urlparse
            (client_of_three 10) [] room
           "get_account_count" [] None None 0
           (fst (fst flaky_call)) (snd (fst flaky_call))).
  vm_compute. reflexivity.
Defined.

Lemma exec_returns_the_result_witness :
  exists response response_json result,
    healthy_network (List.length (@nil attempt)) "https://node1"
      (json_rpc_body "get_account_count" [] None true 0) = inr response /\
    status response = 200 /\
    data response = Some response_json /\
    contains "error" response_json = Ok false /\
    getitem response_json "result" = Ok result /\
    PyTuple [PyInt 42; PyTuple []]
      = (if truthy (Some true) then PyTuple [result; PyTuple []] else result).
Proof.
  apply (exec_returns_the_result healthy_network plain_urlparse
            (client_of_three 10) [] room
           "get_account_count" [] None (Some true) 0
           (PyTuple [PyInt 42; PyTuple []]) (client_of_three 10) []
           (logged (client_of_three 10)
                   (json_rpc_body "get_account_count" [] None true 0) 0)).
  vm_compute. reflexivity.
Defined.

Lemma exec_gives_up_on_spent_budget_witness :
  exists sent,
    snd refused_call = ([] ++ sent)%list /\
    List.length sent = (Z.to_nat (max_failovers (client_of_three 2)) + 1)%nat.
Proof.
  apply (exec_gives_up_on_spent_budget unreachable_network plain_urlparse
            (client_of_three 2) [] room
           "get_followers" [PyStr "furion"] (Some "follow_api"%string) None
           (TransportExc MaxRetryError) (snd (fst refused_call))).
  - simpl. lia.
  - reflexivity.
  - vm_compute. reflexivity.
Defined.

Lemma rpc_error_message_witness :
  exec rpc_error_network plain_urlparse (client_of_three 0) [] room
       "get_accounts" [] None None 0
  = (Err (RPCError (PyStr "missing required active authority")),
     client_of_three 0,
     [logged (client_of_three 0) (json_rpc_body "get_accounts" [] None true 0) 0]).
Proof.
  destruct (rpc_error_message rpc_error_network plain_urlparse
            (client_of_three 0) [] room
              "get_accounts" [] None None 0 rpc_error_reply
              [("id"%string, PyInt 0);
               ("error"%string,
                PyDict [("code"%string, PyInt 10);
                        ("message"%string, PyStr "Assert Exception");
                        ("detail"%string,
                         PyStr "missing required active authority")])]
              [("code"%string, PyInt 10);
               ("message"%string, PyStr "Assert Exception");
               ("detail"%string, PyStr "missing required active authority")]
              (PyStr "Assert Exception")
              eq_refl eq_refl eq_refl eq_refl eq_refl)
    as [Hspent _].
  apply Hspent. simpl. lia.
Defined.

Lemma error_detail_without_message_witness :
  exec detail_only_network plain_urlparse (client_of_three 10) [] room
       "get_accounts" [] None None 0
  = (Err (KeyError "message"), client_of_three 10,
     [logged (client_of_three 10) (json_rpc_body "get_accounts" [] None true 0) 0]).
Proof.
  apply (error_detail_without_message detail_only_network plain_urlparse
            (client_of_three 10) [] room
           "get_accounts" [] None None 0 detail_only_reply
           [("error"%string, PyDict [("detail"%string, PyStr "overloaded")])]
           [("detail"%string, PyStr "overloaded")]
           (PyStr "overloaded")); reflexivity.
Defined.

Lemma undecodable_body_witness :
  exec garbled_network plain_urlparse (client_of_three 0) [] room
       "get_accounts" [] None None 0
  = (Err (SteemdBadResponse (BadResponse garbled_reply)), client_of_three 0,
     [logged (client_of_three 0) (json_rpc_body "get_accounts" [] None true 0) 0]).
Proof.
  destruct (undecodable_body garbled_network plain_urlparse
            (client_of_three 0) [] room
              "get_accounts" [] None None 0 garbled_reply
              eq_refl eq_refl eq_refl)
    as [Hspent _].
  apply Hspent. simpl. lia.
Defined.

Lemma non_object_body_raises_witness :
  exists x,
    exec array_network plain_urlparse (client_of_three 10) [] room
         "get_accounts" [] None None 0
    = (Err x, client_of_three 10,
       [logged (client_of_three 10)
               (json_rpc_body "get_accounts" [] None true 0) 0]) /\
    (x = TypeError \/ x = SteemdBadResponse (BadMessage missing_result)).
Proof.
  apply (non_object_body_raises array_network plain_urlparse
            (client_of_three 10) [] room
           "get_accounts" [] None None 0 array_reply
           (PyList [PyInt 1; PyInt 2])); try reflexivity.
  intros entries. discriminate.
Defined.

Lemma spent_budget_single_request_witness :
  exists r,
    exec unreachable_network plain_urlparse (client_of_three (-1)) [] room
         "get_accounts" [] None None 0
    = (r, client_of_three (-1),
       [logged (client_of_three (-1))
               (json_rpc_body "get_accounts" [] None true 0) 0]).
Proof.
  apply (spent_budget_single_request unreachable_network plain_urlparse
            (client_of_three (-1)) [] room
           "get_accounts" [] None None 0).
  simpl. lia.
Defined.

Lemma exec_succeeds_after_failover_witness :
  exists self' sent,
    flaky_call = (Ok (PyInt 42), self', ([] ++ sent)%list) /\
    List.length sent = 3%nat /\
    rotate 2 (client_of_three 10) = Ok self' /\
    nth_error three_nodes
      (Nat.modulo (active_index (client_of_three 10) + 2)
                  (List.length three_nodes))
      = Some (url self').
Proof.
  apply (exec_succeeds_after_failover flaky_network plain_urlparse three_nodes
           (client_of_three 10) [] room "get_account_count" [] None None 2
           good_reply
           [("id"%string, PyInt 0); ("result"%string, PyInt 42)] (PyInt 42)).
  - apply client_of_three_reachable.
  - simpl. lia.
  - unfold room. lia.
  - intros i node_url _ Hnode. apply three_nodes_accepted.
    eapply nth_error_In. exact Hnode.
  - reflexivity.
  - reflexivity.
  - reflexivity.
  - reflexivity.
  - intros i node_url body Hi _. left. exists MaxRetryError.
    unfold flaky_network. simpl.
    destruct (Nat.ltb_spec i 2); [reflexivity | lia].
  - intros node_url body _. reflexivity.
Defined.

Lemma rotation_is_round_robin_witness :
  exists self,
    rotate 4 (client_of_three 10) = Ok self /\
    nth_error three_nodes (Nat.modulo 4 (List.length three_nodes))
      = Some (url self).
Proof.
  apply (rotation_is_round_robin three_nodes (with_budget 10)
           (client_of_three 10) 4).
  reflexivity.
Defined.


Lemma set_node_lasts_until_rotation_witness :
  exists first later,
    snd (exec healthy_network plain_urlparse
              (set_node (client_of_three 10) "https://spare") [] room
              "get_account_count" [] None None 0)
    = ([] ++ first :: later)%list /\
    sent_to first = "https://spare"%string.
Proof.
  destruct (set_node_lasts_until_rotation (client_of_three 10) "https://spare")
    as [_ Hexec].
  apply (Hexec healthy_network plain_urlparse [] room
           "get_account_count"%string [] None None 0
           (Ok (PyInt 42)) (set_node (client_of_three 10) "https://spare")).
  vm_compute. reflexivity.
Defined.

Lemma exec_error_kinds_witness :
  raised_on_spent_budget (TransportExc MaxRetryError) = true \/
  (TransportExc MaxRetryError = ValueError /\
   plain_urlparse (url (snd (fst refused_call))) = Rejected) \/
  (TransportExc MaxRetryError = RecursionError /\
   List.length (snd refused_call)
   = (List.length (@nil attempt) + room + 1)%nat) \/
  TransportExc MaxRetryError = TypeError \/
  TransportExc MaxRetryError = AttributeError \/
  TransportExc MaxRetryError = KeyError "message" \/
  TransportExc MaxRetryError = SteemdBadResponse (BadMessage missing_result).
Proof.
  apply (exec_error_kinds unreachable_network plain_urlparse three_nodes
           (client_of_three 2) [] room
           "get_followers" [PyStr "furion"] (Some "follow_api"%string) None 0
           (TransportExc MaxRetryError)
           (snd (fst refused_call)) (snd refused_call)).
  - apply client_of_three_reachable.
  - vm_compute. reflexivity.
Defined.

Lemma exec_all_bad_status_witness :
  exists down self' front last,
    exec failing_gateway plain_urlparse (client_of_three 2) [] room
         "get_accounts" [] None None 0
      = (Err (SteemdBadResponse (BadResponse down)), self',
         ([] ++ front ++ [last])%list) /\
    List.length front = Z.to_nat (max_failovers (client_of_three 2)) /\
    failing_gateway (List.length (@nil attempt) + List.length front)%nat
                    (sent_to last) (sent_body last) = inr down /\
    rotate (Z.to_nat (max_failovers (client_of_three 2))) (client_of_three 2)
      = Ok self'.
Proof.
  apply (exec_all_bad_status failing_gateway plain_urlparse three_nodes
           (client_of_three 2) [] room "get_accounts" [] None None).
  - apply client_of_three_reachable.
  - simpl. lia.
  - unfold room. simpl. lia.
  - apply three_nodes_accepted.
  - intros n node_url body. exists bad_gateway. split; [reflexivity | discriminate].
Defined.
